(** * spend_analyzer: the SMS expense pipeline

    A shallow embedding of [analyze.py] and [llama.py]: message
    normalisation, interpretation of the model's reply, record assembly,
    defaulting and the relational sink, followed by the properties the
    specification states about them.

    Conventions.
    - A Python [str] is a Rocq [string] holding its UTF-8 bytes.  All the
      characters the program tests for are ASCII, and an ASCII byte never
      occurs inside a multi-byte sequence, so byte-wise and
      code-point-wise processing agree on well-formed text.
    - Python exceptions are values of [exn]; fallible code returns
      [result].
    - A Python [float] is modelled by the exact rational its decimal
      literal denotes, plus infinities and NaN; overflow to an infinity
      is modelled, rounding to binary64, underflow and the sign of zero
      are not.
    - Library behaviour that depends on the host ([repr] of a float, the
      local time zone, the text form SQLite gives a real) is gathered in
      the [Platform] class; the model service is an oracle. *)

From Stdlib Require Import ZArith QArith Qabs Ascii String List Lia DecimalString.
From Stdlib Require Import Decimal DecimalFacts DecimalPos.
From stdpp Require Import gmap strings list fin_maps.

Set Warnings "-register-all".
Local Open Scope string_scope.
Local Open Scope Z_scope.

(* ===================================================================== *)
(** * Exceptions and results *)
(* ===================================================================== *)

Module Py.

(** The exception classes the program can meet.  [JSONDecodeError] is a
    subclass of [ValueError]; [ServiceError] stands for whatever the
    model client raises; [BindingError] is the error of sqlite3 for a
    parameter of an unsupported type ([InterfaceError], or
    [ProgrammingError] in later versions). *)
Inductive exn : Type :=
| ValueError
| JSONDecodeError
| TypeError
| OverflowError
| OSError
| AttributeError
| KeyError
| BindingError
| ServiceError.

Definition exn_eqb (a b : exn) : bool :=
  match a, b with
  | ValueError, ValueError | JSONDecodeError, JSONDecodeError
  | TypeError, TypeError | OverflowError, OverflowError
  | OSError, OSError | AttributeError, AttributeError
  | KeyError, KeyError | BindingError, BindingError
  | ServiceError, ServiceError => true
  | _, _ => false
  end.

(** [isinstance e cls] for the classes above. *)
Definition isinstance (e cls : exn) : bool :=
  exn_eqb e cls ||
  match e, cls with
  | JSONDecodeError, ValueError => true
  | _, _ => false
  end.

(** An [except (c1, c2, ...)] clause. *)
Definition caught_by (e : exn) (classes : list exn) : bool :=
  existsb (isinstance e) classes.

Inductive result (A : Type) : Type :=
| Ok (a : A)
| Raise (e : exn).
Arguments Ok {A} a.
Arguments Raise {A} e.

Definition bind {A B} (r : result A) (k : A -> result B) : result B :=
  match r with
  | Ok a => k a
  | Raise e => Raise e
  end.

(** [try r except classes: handler]. *)
Definition try_except {A} (r : result A) (classes : list exn)
    (handler : exn -> result A) : result A :=
  match r with
  | Ok a => Ok a
  | Raise e => if caught_by e classes then handler e else Raise e
  end.

(** [except Exception] catches every class of [exn]. *)
Definition try_except_all {A} (r : result A) (handler : exn -> result A)
    : result A :=
  match r with
  | Ok a => Ok a
  | Raise e => handler e
  end.

End Py.
Import Py.

(** [result] is a monad; stdpp's [x ← c; k] notation is used for it. *)
#[global] Instance result_ret : MRet result := fun _ a => Ok a.
#[global] Instance result_bind : MBind result := fun _ _ k r => Py.bind r k.

(* ===================================================================== *)
(** * Values *)
(* ===================================================================== *)

(** A float: NaN, an infinity, or a finite value kept as a reduced
    fraction. *)
Inductive pyfloat : Type :=
| FNan
| FInf (negative : bool)
| FFin (q : Q).

(** The values [json.loads] can build, which are also the values a record
    field can hold.  A [dict] keeps insertion order, as Python does. *)
Inductive pyval : Type :=
| PNone
| PBool (b : bool)
| PInt (z : Z)
| PFloat (f : pyfloat)
| PStr (s : string)
| PList (l : list pyval)
| PDict (d : list (string * pyval)).

(** Truth value of an object ([bool(v)]); NaN and the infinities are
    true. *)
Definition truthy (v : pyval) : bool :=
  match v with
  | PNone => false
  | PBool b => b
  | PInt z => negb (z =? 0)
  | PFloat (FFin q) => negb (Qeq_bool q 0)
  | PFloat _ => true
  | PStr s => negb (String.eqb s "")
  | PList l => match l with [] => false | _ => true end
  | PDict d => match d with [] => false | _ => true end
  end.

(** ** Dictionaries with insertion order *)

Fixpoint dict_get (k : string) (d : list (string * pyval)) : option pyval :=
  match d with
  | [] => None
  | (k', v) :: d' => if String.eqb k k' then Some v else dict_get k d'
  end.

(** [d[k] = v]: an existing key keeps its position. *)
Fixpoint dict_set (k : string) (v : pyval) (d : list (string * pyval))
    : list (string * pyval) :=
  match d with
  | [] => [(k, v)]
  | (k', v') :: d' =>
      if String.eqb k k' then (k', v) :: d' else (k', v') :: dict_set k v d'
  end.

(** ** Floats *)

(** Magnitudes from [2^1024 - 2^970] on round to an infinity. *)
Definition float_overflow_bound : Z := 2 ^ 1024 - 2 ^ 970.

Definition Q_overflows (q : Q) : bool :=
  Qle_bool (inject_Z float_overflow_bound) (Qabs q).

Definition float_of_Q (q : Q) : pyfloat :=
  if Q_overflows q then FInf (negb (Qle_bool 0 q)) else FFin (Qred q).

(** The float denoted by [(-1)^neg * m * 10^e]. *)
Definition float_of_decimal (neg : bool) (m e : Z) : pyfloat :=
  if m =? 0 then FFin 0
  else float_of_Q (inject_Z (if neg then - m else m) * Qpower (10 # 1) e).

Definition float_of_Z (z : Z) : pyfloat := FFin (inject_Z z).

(** [float(n)] for an [int]. *)
Definition float_of_int (z : Z) : result pyfloat :=
  if float_overflow_bound <=? Z.abs z then Raise OverflowError
  else Ok (float_of_Z z).

(** [n / d] for two [int]s with [d > 0] (true division). *)
Definition int_true_div (n : Z) (d : positive) : result pyfloat :=
  if float_overflow_bound * Z.pos d <=? Z.abs n then Raise OverflowError
  else Ok (FFin (Qred (n # d))).

(* ===================================================================== *)
(** * Characters and strings *)
(* ===================================================================== *)

Module Str.

Definition quote : ascii := "034"%char.      (* the double quote *)
Definition apostrophe : ascii := "039"%char.
Definition newline : ascii := "010"%char.
Definition backslash : ascii := "092"%char.

Definition code (c : ascii) : Z := Z.of_N (N_of_ascii c).
Definition chr (z : Z) : ascii := ascii_of_N (Z.to_N z).

Definition is_digit (c : ascii) : bool := (48 <=? code c) && (code c <=? 57).
Definition digit_val (c : ascii) : Z := code c - 48.

(** Value of a hexadecimal digit. *)
Definition hex_val (c : ascii) : option Z :=
  let n := code c in
  if (48 <=? n) && (n <=? 57) then Some (n - 48)
  else if (97 <=? n) && (n <=? 102) then Some (n - 87)
  else if (65 <=? n) && (n <=? 70) then Some (n - 55)
  else None.

(** ASCII white space as [str.strip] sees it. *)
Definition is_space (c : ascii) : bool :=
  let n := code c in
  ((9 <=? n) && (n <=? 13)) || ((28 <=? n) && (n <=? 32)).

(** White space as [int] and [float] skip it around an ASCII literal. *)
Definition is_c_space (c : ascii) : bool :=
  let n := code c in
  ((9 <=? n) && (n <=? 13)) || (n =? 32).

Definition to_lower (c : ascii) : ascii :=
  let n := code c in
  if (65 <=? n) && (n <=? 90) then chr (n + 32) else c.

Fixpoint lower (s : string) : string :=
  match s with
  | EmptyString => EmptyString
  | String c r => String (to_lower c) (lower r)
  end.

Fixpoint drop_while (p : ascii -> bool) (s : string) : string :=
  match s with
  | EmptyString => EmptyString
  | String c r => if p c then drop_while p r else s
  end.

Fixpoint rev_acc (s acc : string) : string :=
  match s with
  | EmptyString => acc
  | String c r => rev_acc r (String c acc)
  end.

Definition rev (s : string) : string := rev_acc s EmptyString.

(** Removal of the leading and trailing characters that satisfy [p]. *)
Definition strip_with (p : ascii -> bool) (s : string) : string :=
  rev (drop_while p (rev (drop_while p s))).

(** [s.strip()]; white space outside ASCII is not recognised. *)
Definition strip (s : string) : string := strip_with is_space s.

Fixpoint filter (p : ascii -> bool) (s : string) : string :=
  match s with
  | EmptyString => EmptyString
  | String c r => if p c then String c (filter p r) else filter p r
  end.

Fixpoint map (f : ascii -> ascii) (s : string) : string :=
  match s with
  | EmptyString => EmptyString
  | String c r => String (f c) (map f r)
  end.

Fixpoint existsb (p : ascii -> bool) (s : string) : bool :=
  match s with
  | EmptyString => false
  | String c r => p c || existsb p r
  end.

(** [s.startswith(p)], returning what follows the prefix. *)
Fixpoint strip_prefix (p s : string) : option string :=
  match p with
  | EmptyString => Some s
  | String a p' =>
      match s with
      | String b s' => if Ascii.eqb a b then strip_prefix p' s' else None
      | EmptyString => None
      end
  end.

(** A run of decimal digits and what follows it. *)
Fixpoint span_digits (s : string) : string * string :=
  match s with
  | String c r =>
      if is_digit c then let '(d, t) := span_digits r in (String c d, t)
      else (EmptyString, s)
  | EmptyString => (EmptyString, EmptyString)
  end.

Fixpoint digits_val_acc (acc : Z) (s : string) : Z :=
  match s with
  | EmptyString => acc
  | String c r => digits_val_acc (10 * acc + digit_val c) r
  end.

Definition digits_val (s : string) : Z := digits_val_acc 0 s.

Definition len (s : string) : Z := Z.of_nat (String.length s).

(** A digit or a letter from [a] to [f]. *)
Definition is_lower_hex (c : ascii) : bool :=
  is_digit c || ((97 <=? code c) && (code c <=? 102)).

Fixpoint forallb (p : ascii -> bool) (s : string) : bool :=
  match s with
  | EmptyString => true
  | String c r => p c && forallb p r
  end.

End Str.

(* ===================================================================== *)
(** * The built-ins [int] and [float] *)
(* ===================================================================== *)

Module Builtins.
Import Str.

(** A digit, then digits with single underscores between them; returns
    the digits after the first one (underscores removed) and the rest. *)
Fixpoint digit_tail (s : string) : string * string :=
  match s with
  | String c r =>
      if is_digit c then let '(d, t) := digit_tail r in (String c d, t)
      else if Ascii.eqb c "_" then
        match r with
        | String c2 r2 =>
            if is_digit c2
            then let '(d, t) := digit_tail r2 in (String c2 d, t)
            else (EmptyString, s)
        | EmptyString => (EmptyString, s)
        end
      else (EmptyString, s)
  | EmptyString => (EmptyString, EmptyString)
  end.

Definition digitpart (s : string) : option (string * string) :=
  match s with
  | String c r =>
      if is_digit c then let '(d, t) := digit_tail r in Some (String c d, t)
      else None
  | EmptyString => None
  end.

(** An optional sign. *)
Definition sign (s : string) : bool * string :=
  match s with
  | String c r =>
      if Ascii.eqb c "-" then (true, r)
      else if Ascii.eqb c "+" then (false, r)
      else (false, s)
  | EmptyString => (false, s)
  end.

(** [int(s)] in base 10.  Digits and white space outside ASCII, which
    Python also accepts, are outside this model, and so is the
    interpreter's limit on the number of digits. *)
Definition int_of_str (s : string) : result Z :=
  let '(neg, s1) := sign (strip_with is_c_space s) in
  match digitpart s1 with
  | Some (d, EmptyString) =>
      Ok (if neg then - digits_val d else digits_val d)
  | _ => Raise ValueError
  end.

(** The exponent part [e[+-]digits] of a float literal, if any. *)
Definition exponent (s : string) : option (Z * string) :=
  match s with
  | String c r =>
      if Ascii.eqb (to_lower c) "e" then
        let '(neg, r1) := sign r in
        match digitpart r1 with
        | Some (d, t) => Some (if neg then - digits_val d else digits_val d, t)
        | None => None
        end
      else None
  | EmptyString => None
  end.

(** The unsigned decimal part of a float literal: [digits], [digits.],
    [digits.digits] or [.digits]; returns mantissa digits, the number of
    them after the point, and the rest. *)
Definition decimal (s : string) : option (string * Z * string) :=
  match digitpart s with
  | Some (i, String c r) =>
      if Ascii.eqb c "." then
        match digitpart r with
        | Some (f, t) => Some (i ++ f, len f, t)
        | None => Some (i, 0, r)
        end
      else Some (i, 0, String c r)
  | Some (i, EmptyString) => Some (i, 0, EmptyString)
  | None =>
      match s with
      | String c r =>
          if Ascii.eqb c "." then
            match digitpart r with
            | Some (f, t) => Some (f, len f, t)
            | None => None
            end
          else None
      | EmptyString => None
      end
  end.

(** [float(s)] for a string (ASCII digits and white space). *)
Definition float_of_str (s : string) : result pyfloat :=
  let '(neg, s1) := sign (strip_with is_c_space s) in
  let word := lower s1 in
  if String.eqb word "inf" || String.eqb word "infinity" then Ok (FInf neg)
  else if String.eqb word "nan" then Ok FNan
  else
    match decimal s1 with
    | Some (m, nfrac, EmptyString) =>
        Ok (float_of_decimal neg (digits_val m) (- nfrac))
    | Some (m, nfrac, rest) =>
        match exponent rest with
        | Some (e, EmptyString) =>
            Ok (float_of_decimal neg (digits_val m) (e - nfrac))
        | _ => Raise ValueError
        end
    | None => Raise ValueError
    end.

(** [float(v)]. *)
Definition float (v : pyval) : result pyfloat :=
  match v with
  | PNone => Raise TypeError
  | PBool b => Ok (float_of_Z (if b then 1 else 0))
  | PInt z => float_of_int z
  | PFloat f => Ok f
  | PStr s => float_of_str s
  | PList _ => Raise TypeError
  | PDict _ => Raise TypeError
  end.

End Builtins.

(* ===================================================================== *)
(** * The host *)
(* ===================================================================== *)

(** What the program takes from its host and this development does not
    compute: [repr] of a finite float, the formatted local time of an
    epoch time in seconds ([datetime.fromtimestamp(t).strftime(...)],
    which may raise), and the text SQLite stores for a real in a TEXT
    column. *)
Class Platform : Type := {
  float_repr : Q -> string;
  local_strftime : pyfloat -> result string;
  sqlite_real_text : pyfloat -> string
}.

(* ===================================================================== *)
(** * [json.loads] and [json.dumps] *)
(* ===================================================================== *)

Module Json.
Import Str.

(** White space between JSON tokens. *)
Definition is_ws (c : ascii) : bool :=
  Ascii.eqb c " " || Ascii.eqb c "009" || Ascii.eqb c "010"
  || Ascii.eqb c "013".

Definition skip_ws (s : string) : string := drop_while is_ws s.

(** UTF-8 bytes of a code point (a lone surrogate gets its three-byte
    form). *)
Definition utf8 (n : Z) : string :=
  if n <? 128 then String (chr n) EmptyString
  else if n <? 2048 then
    String (chr (192 + n / 64)) (String (chr (128 + n mod 64)) EmptyString)
  else if n <? 65536 then
    String (chr (224 + n / 4096))
      (String (chr (128 + (n / 64) mod 64))
         (String (chr (128 + n mod 64)) EmptyString))
  else
    String (chr (240 + n / 262144))
      (String (chr (128 + (n / 4096) mod 64))
         (String (chr (128 + (n / 64) mod 64))
            (String (chr (128 + n mod 64)) EmptyString))).

Definition hex4 (a b c d : ascii) : option Z :=
  match hex_val a, hex_val b, hex_val c, hex_val d with
  | Some x, Some y, Some z, Some w => Some (((x * 16 + y) * 16 + z) * 16 + w)
  | _, _, _, _ => None
  end.

(** The one-letter escapes. *)
Definition simple_escape (c : ascii) : option ascii :=
  if Ascii.eqb c quote then Some quote
  else if Ascii.eqb c backslash then Some backslash
  else if Ascii.eqb c "/" then Some "/"%char
  else if Ascii.eqb c "b" then Some "008"%char
  else if Ascii.eqb c "f" then Some "012"%char
  else if Ascii.eqb c "n" then Some "010"%char
  else if Ascii.eqb c "r" then Some "013"%char
  else if Ascii.eqb c "t" then Some "009"%char
  else None.

Definition prepend (p : string) (r : option (string * string))
    : option (string * string) :=
  match r with
  | Some (s, t) => Some (p ++ s, t)
  | None => None
  end.

(** The low half of a surrogate pair written [\uXXXX], if [s] starts with
    one. *)
Definition low_surrogate (s : string) : option (Z * string) :=
  match s with
  | String b (String u (String h1 (String h2 (String h3 (String h4 r))))) =>
      if Ascii.eqb b backslash && Ascii.eqb u "u" then
        match hex4 h1 h2 h3 h4 with
        | Some lo => if (56320 <=? lo) && (lo <=? 57343) then Some (lo, r) else None
        | None => None
        end
      else None
  | _ => None
  end.

(** [scanstring] in strict mode, from just after the opening quote:
    the decoded string and what follows the closing quote. *)
Fixpoint scanstring (s : string) : option (string * string) :=
  match s with
  | EmptyString => None
  | String c r =>
      if Ascii.eqb c quote then Some (EmptyString, r)
      else if Ascii.eqb c backslash then
        match r with
        | String e r1 =>
            if Ascii.eqb e "u" then
              match r1 with
              | String h1 (String h2 (String h3 (String h4 r2))) =>
                  match hex4 h1 h2 h3 h4 with
                  | Some hi =>
                      if (55296 <=? hi) && (hi <=? 56319) then
                        match r2 with
                        | String b (String u (String g1 (String g2
                            (String g3 (String g4 r3))))) =>
                            match low_surrogate r2 with
                            | Some (lo, _) =>
                                prepend
                                  (utf8 (65536 + (hi - 55296) * 1024
                                         + (lo - 56320)))
                                  (scanstring r3)
                            | None => prepend (utf8 hi) (scanstring r2)
                            end
                        | _ => prepend (utf8 hi) (scanstring r2)
                        end
                      else prepend (utf8 hi) (scanstring r2)
                  | None => None
                  end
              | _ => None
              end
            else
              match simple_escape e with
              | Some ch => prepend (String ch EmptyString) (scanstring r1)
              | None => None
              end
        | EmptyString => None
        end
      else if code c <? 32 then None
      else prepend (String c EmptyString) (scanstring r)
  end.

(** A JSON number at the head of [s]: an optional minus, then [0] or a
    run of digits not starting with [0]; then, each only if complete, a
    point with digits and an exponent [e] or [E] with an optional sign and
    digits. *)
Definition scan_number (s : string) : option (pyval * string) :=
  let '(neg, s1) :=
    match s with
    | String c r => if Ascii.eqb c "-" then (true, r) else (false, s)
    | EmptyString => (false, s)
    end in
  match s1 with
  | String c r =>
      if is_digit c then
        let '(int_digits, t) :=
          if Ascii.eqb c "0" then (String c EmptyString, r)
          else let '(d, t) := span_digits r in (String c d, t) in
        let '(frac, t1) :=
          match t with
          | String p r1 =>
              if Ascii.eqb p "." then
                match span_digits r1 with
                | (EmptyString, _) => (None, t)
                | (d, t') => (Some d, t')
                end
              else (None, t)
          | EmptyString => (None, t)
          end in
        let '(exp, t2) :=
          match t1 with
          | String e r1 =>
              if Ascii.eqb e "e" || Ascii.eqb e "E" then
                let '(eneg, r2) :=
                  match r1 with
                  | String g r2 =>
                      if Ascii.eqb g "-" then (true, r2)
                      else if Ascii.eqb g "+" then (false, r2)
                      else (false, r1)
                  | EmptyString => (false, r1)
                  end in
                match span_digits r2 with
                | (EmptyString, _) => (None, t1)
                | (d, t') =>
                    (Some (if eneg then - digits_val d else digits_val d), t')
                end
              else (None, t1)
          | EmptyString => (None, t1)
          end in
        match frac, exp with
        | None, None =>
            Some (PInt (if neg then - digits_val int_digits
                        else digits_val int_digits), t2)
        | _, _ =>
            let f := match frac with Some d => d | None => EmptyString end in
            let e := match exp with Some e => e | None => 0 end in
            Some (PFloat (float_of_decimal neg (digits_val (int_digits ++ f))
                            (e - len f)), t2)
        end
      else None
  | EmptyString => None
  end.

(** The literals [null], [true], [false], [NaN], [Infinity] and
    [-Infinity]; numbers are tried before the last three. *)
Definition scan_literal (s : string) : option (pyval * string) :=
  match strip_prefix "null" s with
  | Some r => Some (PNone, r)
  | None =>
  match strip_prefix "true" s with
  | Some r => Some (PBool true, r)
  | None =>
  match strip_prefix "false" s with
  | Some r => Some (PBool false, r)
  | None =>
  match scan_number s with
  | Some x => Some x
  | None =>
  match strip_prefix "NaN" s with
  | Some r => Some (PFloat FNan, r)
  | None =>
  match strip_prefix "Infinity" s with
  | Some r => Some (PFloat (FInf false), r)
  | None =>
  match strip_prefix "-Infinity" s with
  | Some r => Some (PFloat (FInf true), r)
  | None => None
  end end end end end end end.

(** Outcome of a scan: a value and the rest, a decode error, or the
    recursion budget ran out. *)
Inductive scan (A : Type) : Type :=
| Scanned (a : A) (rest : string)
| DecodeError
| OutOfFuel.
Arguments Scanned {A} a rest.
Arguments DecodeError {A}.
Arguments OutOfFuel {A}.

(** [scan_once], with the loops of [JSONObject] and [JSONArray].
    [object_members] starts just after the opening quote of a key,
    [array_items] at the start of a value. *)
Fixpoint scan_once (fuel : nat) (s : string) : scan pyval :=
  match fuel with
  | O => OutOfFuel
  | S n =>
      match s with
      | EmptyString => DecodeError
      | String c r =>
          if Ascii.eqb c quote then
            match scanstring r with
            | Some (str, t) => Scanned (PStr str) t
            | None => DecodeError
            end
          else if Ascii.eqb c "{" then
            match skip_ws r with
            | String c1 r1 =>
                if Ascii.eqb c1 "}" then Scanned (PDict []) r1
                else if Ascii.eqb c1 quote then object_members n [] r1
                else DecodeError
            | EmptyString => DecodeError
            end
          else if Ascii.eqb c "[" then
            match skip_ws r with
            | String c1 r1 =>
                if Ascii.eqb c1 "]" then Scanned (PList []) r1
                else array_items n [] (String c1 r1)
            | EmptyString => DecodeError
            end
          else
            match scan_literal s with
            | Some (v, t) => Scanned v t
            | None => DecodeError
            end
      end
  end
with object_members (fuel : nat) (acc : list (string * pyval)) (s : string)
    : scan pyval :=
  match fuel with
  | O => OutOfFuel
  | S n =>
      match scanstring s with
      | None => DecodeError
      | Some (key, t) =>
          match skip_ws t with
          | String c r =>
              if Ascii.eqb c ":" then
                match scan_once n (skip_ws r) with
                | Scanned v t1 =>
                    let acc' := dict_set key v acc in
                    match skip_ws t1 with
                    | String c2 r2 =>
                        if Ascii.eqb c2 "}" then Scanned (PDict acc') r2
                        else if Ascii.eqb c2 "," then
                          match skip_ws r2 with
                          | String c3 r3 =>
                              if Ascii.eqb c3 quote
                              then object_members n acc' r3
                              else DecodeError
                          | EmptyString => DecodeError
                          end
                        else DecodeError
                    | EmptyString => DecodeError
                    end
                | DecodeError => DecodeError
                | OutOfFuel => OutOfFuel
                end
              else DecodeError
          | EmptyString => DecodeError
          end
      end
  end
with array_items (fuel : nat) (acc : list pyval) (s : string) : scan pyval :=
  match fuel with
  | O => OutOfFuel
  | S n =>
      match scan_once n s with
      | Scanned v t =>
          match skip_ws t with
          | String c r =>
              if Ascii.eqb c "]" then Scanned (PList (List.rev (v :: acc))) r
              else if Ascii.eqb c "," then array_items n (v :: acc) (skip_ws r)
              else DecodeError
          | EmptyString => DecodeError
          end
      | DecodeError => DecodeError
      | OutOfFuel => OutOfFuel
      end
  end.

(** A scan that did not run out of budget and, when it produced a value,
    consumed some of [s]. *)
Definition scan_progress (r : scan pyval) (s : string) : Prop :=
  r <> OutOfFuel /\
  forall v t, r = Scanned v t -> (String.length t < String.length s)%nat.

(** The UTF-8 form of the byte order mark, which [loads] refuses. *)
Definition bom : string :=
  String (chr 239) (String (chr 187) (String (chr 191) EmptyString)).

(** [raw_decode] then the check for trailing data. *)
Definition decode (fuel : nat) (s : string) : scan pyval :=
  match strip_prefix bom s with
  | Some _ => DecodeError
  | None =>
      match scan_once fuel (skip_ws s) with
      | Scanned v t =>
          match skip_ws t with
          | EmptyString => Scanned v EmptyString
          | _ => DecodeError
          end
      | DecodeError => DecodeError
      | OutOfFuel => OutOfFuel
      end
  end.

(** Every nested call consumes a character, so a budget of twice the
    length plus two is never exhausted (lemma [decode_fuel] below). *)
Definition fuel_for (s : string) : nat := S (S (2 * String.length s)).

(** [json.loads(s)]: the value, or [JSONDecodeError].  The interpreter's
    recursion limit is not modelled. *)
Definition loads (s : string) : result pyval :=
  match decode (fuel_for s) s with
  | Scanned v _ => Ok v
  | _ => Raise JSONDecodeError
  end.

(** ** Serialisation *)

Definition int_repr (z : Z) : string := NilZero.string_of_int (Z.to_int z).

Definition hex_digit (n : Z) : ascii :=
  if n <? 10 then chr (48 + n) else chr (87 + n).

(** [\uXXXX] for a code unit below [2^16]. *)
Definition u_escape (n : Z) : string :=
  String backslash (String "u"
    (String (hex_digit (n / 4096 mod 16)) (String (hex_digit (n / 256 mod 16))
      (String (hex_digit (n / 16 mod 16)) (String (hex_digit (n mod 16))
        EmptyString))))).

(** The escape of a code point, as a surrogate pair above [2^16]. *)
Definition escape_code_point (n : Z) : string :=
  if n <? 65536 then u_escape n
  else
    let m := n - 65536 in
    u_escape (55296 + m / 1024) ++ u_escape (56320 + m mod 1024).

Definition short_escape (c : ascii) : option string :=
  if Ascii.eqb c quote then Some (String backslash (String quote EmptyString))
  else if Ascii.eqb c backslash
  then Some (String backslash (String backslash EmptyString))
  else if Ascii.eqb c "010" then Some (String backslash "n")
  else if Ascii.eqb c "013" then Some (String backslash "r")
  else if Ascii.eqb c "009" then Some (String backslash "t")
  else if Ascii.eqb c "012" then Some (String backslash "f")
  else if Ascii.eqb c "008" then Some (String backslash "b")
  else None.

(** The body of a string literal with [ensure_ascii]: everything outside
    the printable ASCII range is escaped, multi-byte sequences by their
    code point. *)
Fixpoint escape (s : string) : string :=
  match s with
  | EmptyString => EmptyString
  | String c r =>
      let n := code c in
      match short_escape c with
      | Some e => e ++ escape r
      | None =>
          if (32 <=? n) && (n <=? 126) then String c (escape r)
          else if n <? 192 then u_escape n ++ escape r
          else if n <? 224 then
            match r with
            | String c1 r1 =>
                escape_code_point ((n - 192) * 64 + (code c1 - 128))
                ++ escape r1
            | _ => u_escape n ++ escape r
            end
          else if n <? 240 then
            match r with
            | String c1 (String c2 r2) =>
                escape_code_point
                  (((n - 224) * 64 + (code c1 - 128)) * 64 + (code c2 - 128))
                ++ escape r2
            | _ => u_escape n ++ escape r
            end
          else
            match r with
            | String c1 (String c2 (String c3 r3)) =>
                escape_code_point
                  ((((n - 240) * 64 + (code c1 - 128)) * 64
                    + (code c2 - 128)) * 64 + (code c3 - 128))
                ++ escape r3
            | _ => u_escape n ++ escape r
            end
      end
  end.

Definition dumps_str (s : string) : string :=
  String quote (escape s) ++ String quote EmptyString.

Definition dumps_float `{Platform} (f : pyfloat) : string :=
  match f with
  | FNan => "NaN"
  | FInf false => "Infinity"
  | FInf true => "-Infinity"
  | FFin q => float_repr q
  end.

(** [json.dumps(v)] with the default separators. *)
Fixpoint dumps `{Platform} (v : pyval) : string :=
  match v with
  | PNone => "null"
  | PBool true => "true"
  | PBool false => "false"
  | PInt z => int_repr z
  | PFloat f => dumps_float f
  | PStr s => dumps_str s
  | PList l =>
      "[" ++
      (fix items (l : list pyval) : string :=
         match l with
         | [] => ""
         | [x] => dumps x
         | x :: r => dumps x ++ ", " ++ items r
         end) l
      ++ "]"
  | PDict d =>
      "{" ++
      (fix members (d : list (string * pyval)) : string :=
         match d with
         | [] => ""
         | [(k, x)] => dumps_str k ++ ": " ++ dumps x
         | (k, x) :: r => dumps_str k ++ ": " ++ dumps x ++ ", " ++ members r
         end) d
      ++ "}"
  end.

End Json.

(* ===================================================================== *)
(** * llama.py: the extraction client and the response interpreter *)
(* ===================================================================== *)

Module Llama.
Import Str.

Local Abbreviation q := (String quote EmptyString).
Local Abbreviation nl := (String newline EmptyString).

(** The instruction template, line by line. *)
Definition system_prompt : string :=
  String.concat nl
    [
     "";
     "Analyze the following expense text and output ONLY a JSON object with these fields:";
     "Output: {";
     ("    " ++ q ++ "Amount" ++ q ++ ": float,  # Amount in INR (numeric only, no currency symbols)");
     ("    " ++ q ++ "Type" ++ q ++ ": string, # Must be one of: [" ++ q ++ "Debit" ++ q ++ ", " ++ q ++ "Credit" ++ q ++ "]");
     ("    " ++ q ++ "Source" ++ q ++ ": string, # Account/card number");
     ("    " ++ q ++ "Destination" ++ q ++ ": string, # Recipient");
     ("    " ++ q ++ "Category" ++ q ++ ": string # Must be one of: [" ++ q ++ "House Rent/EMI" ++ q ++ "," ++ q ++ "Utility Bills" ++ q ++ "," ++ q ++ "Groceries and Household Items" ++ q ++ "," ++ q ++ "Transportation" ++ q ++ "," ++ q ++ "Healthcare" ++ q ++ "," ++ q ++ "Education Expenses" ++ q ++ "," ++ q ++ "Mobile and Internet Bills" ++ q ++ "," ++ q ++ "Personal Care and Clothing" ++ q ++ "," ++ q ++ "Entertainment and Recreation" ++ q ++ "," ++ q ++ "Savings and Investments" ++ q ++ "]");
     "}";
     "";
     "Requirements:";
     "1. Return ONLY the JSON object, no additional text";
     "2. If expense type is unclear, exclude that message entirely";
     ("3. Amount should be numeric only (no " ++ q ++ "Rs" ++ q ++ " or other symbols)");
     ("4. Format numbers as floats (e.g., 480.0 not " ++ q ++ "480" ++ q ++ ")");
     ("5. If the message is not an expense, return " ++ q ++ "Not expense" ++ q ++ " (not expense)");
     ("6. If the amount is not clear, return  " ++ q ++ "Amount not clear" ++ q ++ " (not expense)");
     "7. Don't return any python code or other text";
     ("8. If the message is reminder for bill payment, return " ++ q ++ "Bill payment reminder" ++ q ++ " (not expense)");
     ("9. If the message is receipt of payment of credit card bill, return " ++ q ++ "Credit card bill payment receipt" ++ q ++ " (not expense)");
     ("10. If money is requested, then return " ++ q ++ "Money requested" ++ q ++ " (not expense)");
     ("11. If the money is credited/refunded, then return " ++ q ++ "Money credited/refunded" ++ q ++ " (not expense)");
     ""
    ].

(** The phrases the template asks for when a message is not an expense. *)
Definition sentinels : list string :=
  [ "Not expense"; "Amount not clear"; "Bill payment reminder";
    "Credit card bill payment receipt"; "Money requested";
    "Money credited/refunded" ].

(** The prompt sent for one message. *)
Definition prompt_for (sms : string) : string :=
  system_prompt ++ nl ++ nl ++ "Here is the text to analyze:" ++ nl ++ sms.

(** The longest prefix of [s] that stays on the current line and ends
    with a closing brace: what [.*\}] matches at the head of [s]. *)
Fixpoint upto_last_brace (s : string) : option string :=
  match s with
  | EmptyString => None
  | String c r =>
      if Ascii.eqb c newline then None
      else
        match upto_last_brace r with
        | Some m => Some (String c m)
        | None => if Ascii.eqb c "}" then Some (String c EmptyString) else None
        end
  end.

(** [re.search(r'\{.*\}', s)], returning [group(0)]: the leftmost opening
    brace from which the pattern matches, extended greedily; the dot does
    not cross a newline. *)
Fixpoint re_search (s : string) : option string :=
  match s with
  | EmptyString => None
  | String c r =>
      if Ascii.eqb c "{" then
        match upto_last_brace r with
        | Some m => Some (String c m)
        | None => re_search r
        end
      else re_search r
  end.

(** Whether the text has more than one line. *)
Definition has_newline (s : string) : bool :=
  existsb (fun c => Ascii.eqb c newline) s.

(** Lines 51-66 of [analyze_sms]: from the raw text to the structured
    object.  [PNone] is Python's [None]. *)
Definition interpret (content : string) : result pyval :=
  match re_search content with
  | Some group0 =>
      try_except (Json.loads group0) [JSONDecodeError] (fun _ =>
        try_except (Json.loads content) [JSONDecodeError] (fun _ =>
          Ok PNone))
  | None =>
      try_except_all (Json.loads content) (fun _ => Ok (PDict []))
  end.

(** [analyze_sms]: [generate] is the service call returning
    [response['response']], or raising. *)
Definition analyze_sms (generate : string -> result string) (sms : string)
    : string * pyval :=
  match
    content ← generate (prompt_for sms);
    json_obj ← interpret content;
    mret (content, json_obj)
  with
  | Ok r => r
  | Raise _ => (EmptyString, PNone)
  end.

End Llama.

(* ===================================================================== *)
(** * hashlib.md5 *)
(* ===================================================================== *)

Module Md5.
Import Str.

Definition mask32 (x : Z) : Z := Z.land x 4294967295.
Definition add32 (x y : Z) : Z := mask32 (x + y).
Definition not32 (x : Z) : Z := Z.lxor x 4294967295.
Definition rotl32 (x n : Z) : Z :=
  mask32 (Z.lor (Z.shiftl x n) (Z.shiftr x (32 - n))).

(** The per-round shift amounts. *)
Definition shifts : list Z :=
  [7; 12; 17; 22; 7; 12; 17; 22; 7; 12; 17; 22; 7; 12; 17; 22;
   5; 9; 14; 20; 5; 9; 14; 20; 5; 9; 14; 20; 5; 9; 14; 20;
   4; 11; 16; 23; 4; 11; 16; 23; 4; 11; 16; 23; 4; 11; 16; 23;
   6; 10; 15; 21; 6; 10; 15; 21; 6; 10; 15; 21; 6; 10; 15; 21].

(** The sine table: [floor (2^32 * |sin (i + 1)|)]. *)
Definition sines : list Z :=
  [
    3614090360; 3905402710; 606105819; 3250441966; 4118548399; 1200080426;
    2821735955; 4249261313; 1770035416; 2336552879; 4294925233; 2304563134;
    1804603682; 4254626195; 2792965006; 1236535329; 4129170786; 3225465664;
    643717713; 3921069994; 3593408605; 38016083; 3634488961; 3889429448;
    568446438; 3275163606; 4107603335; 1163531501; 2850285829; 4243563512;
    1735328473; 2368359562; 4294588738; 2272392833; 1839030562; 4259657740;
    2763975236; 1272893353; 4139469664; 3200236656; 681279174; 3936430074;
    3572445317; 76029189; 3654602809; 3873151461; 530742520; 3299628645;
    4096336452; 1126891415; 2878612391; 4237533241; 1700485571; 2399980690;
    4293915773; 2240044497; 1873313359; 4264355552; 2734768916; 1309151649;
    4149444226; 3174756917; 718787259; 3951481745
  ].

Definition nthZ (l : list Z) (i : Z) : Z := List.nth (Z.to_nat i) l 0.

Record state : Type := State { sa : Z; sb : Z; sc : Z; sd : Z }.

Definition init : state :=
  State 1732584193 4023233417 2562383102 271733878.

(** One of the 64 operations on block [m] (16 little-endian words). *)
Definition step (m : list Z) (st : state) (i : Z) : state :=
  let '(State a b c d) := st in
  let '(f, g) :=
    if i <? 16 then (Z.lor (Z.land b c) (Z.land (not32 b) d), i)
    else if i <? 32 then
      (Z.lor (Z.land d b) (Z.land (not32 d) c), (5 * i + 1) mod 16)
    else if i <? 48 then (Z.lxor b (Z.lxor c d), (3 * i + 5) mod 16)
    else (Z.lxor c (Z.lor b (not32 d)), (7 * i) mod 16) in
  let f' := add32 (add32 (add32 f a) (nthZ sines i)) (nthZ m g) in
  State d (add32 b (rotl32 f' (nthZ shifts i))) b c.

Definition rounds : list Z := List.map Z.of_nat (List.seq 0 64).

Definition compress (st : state) (m : list Z) : state :=
  let '(State a b c d) := List.fold_left (step m) rounds st in
  State (add32 (sa st) a) (add32 (sb st) b) (add32 (sc st) c)
        (add32 (sd st) d).

(** [n] bytes of [x], least significant first. *)
Fixpoint le_bytes (n : nat) (x : Z) : list Z :=
  match n with
  | O => []
  | S k => x mod 256 :: le_bytes k (x / 256)
  end.

Fixpoint le_word (bytes : list Z) : Z :=
  match bytes with
  | [] => 0
  | b :: r => b + 256 * le_word r
  end.

(** The message followed by the [0x80] byte, zeros up to 56 modulo 64 and
    the bit length on eight bytes. *)
Definition pad (msg : list Z) : list Z :=
  let n := Z.of_nat (List.length msg) in
  msg ++ [128] ++ List.repeat 0 (Z.to_nat ((55 - n) mod 64))
      ++ le_bytes 8 ((8 * n) mod 2 ^ 64).

(** Cut into groups of [k] items; [fuel] bounds the number of groups. *)
Fixpoint chunks {A} (fuel k : nat) (l : list A) : list (list A) :=
  match fuel with
  | O => []
  | S f =>
      match l with
      | [] => []
      | _ => List.firstn k l :: chunks f k (List.skipn k l)
      end
  end.

Definition words (block : list Z) : list Z :=
  List.map le_word (chunks 16 4 block).

Definition blocks (bytes : list Z) : list (list Z) :=
  List.map words (chunks (List.length bytes) 64 bytes).

Definition bytes_of (s : string) : list Z :=
  List.map code (list_ascii_of_string s).

Definition digest_state (s : string) : state :=
  List.fold_left compress (blocks (pad (bytes_of s))) init.

Definition hex_digit (n : Z) : ascii :=
  if n <? 10 then chr (48 + n) else chr (87 + n).

Definition hex_byte (b : Z) (rest : string) : string :=
  String (hex_digit (b / 16 mod 16)) (String (hex_digit (b mod 16)) rest).

(** Eight hex digits for the four bytes of a word, least significant
    byte first. *)
Definition hex_word (w : Z) (rest : string) : string :=
  hex_byte (w mod 256) (hex_byte (w / 256 mod 256)
    (hex_byte (w / 65536 mod 256) (hex_byte (w / 16777216 mod 256) rest))).

(** [hashlib.md5(bytes).hexdigest()]. *)
Definition hexdigest (s : string) : string :=
  let '(State a b c d) := digest_state s in
  hex_word a (hex_word b (hex_word c (hex_word d EmptyString))).

End Md5.

(* ===================================================================== *)
(** * analyze.py: normalisation, assembly, defaulting, persistence *)
(* ===================================================================== *)

Module Analyze.

(** A message as [parse_sms_xml] builds it: attribute names to strings,
    with [None] possible for the date. *)
Abbreviation sms_dict := (gmap string (option string)).

(** An assembled record: a dict from field names to values. *)
Abbreviation record := (gmap string pyval).

(** [d.get(k)] on a message: [None] when the key is missing. *)
Definition sms_get (sms : sms_dict) (k : string) : option string :=
  match sms !! k with
  | Some v => v
  | None => None
  end.

Definition of_opt (o : option string) : pyval :=
  match o with
  | Some s => PStr s
  | None => PNone
  end.

(** ** Message normaliser *)

(** Newlines become spaces, bytes outside ASCII are dropped, both quote
    characters are removed. *)
Definition remove_newlines_non_ascii (text : string) : string :=
  let spaced :=
    Str.map (fun c => if Ascii.eqb c Str.newline then " "%char else c) text in
  let ascii_only := Str.filter (fun c => Str.code c <? 128) spaced in
  let no_double :=
    Str.filter (fun c => negb (Ascii.eqb c Str.quote)) ascii_only in
  Str.filter (fun c => negb (Ascii.eqb c Str.apostrophe)) no_double.

Definition json_to_string `{Platform} (json_obj : pyval) : string :=
  Json.dumps json_obj.

Definition floatify (value : pyval) : result pyfloat :=
  try_except (Builtins.float value) [ValueError]
    (fun _ => Ok (float_of_Z 0)).

(** The content fingerprint of a cleaned body. *)
Definition fingerprint (body : string) : string := Md5.hexdigest body.

(** Lines 44-52: the date attribute, epoch milliseconds, to local time
    text; [ValueError] and [TypeError] give [None]. *)
Definition convert_date `{Platform} (date : string) : result (option string) :=
  try_except
    (timestamp ← Builtins.int_of_str date;
     seconds ← int_true_div timestamp 1000;
     text ← local_strftime seconds;
     mret (Some text))
    [ValueError; TypeError]
    (fun _ => Ok None).

(** The body of the loop of [parse_sms_xml] for one element. *)
Definition normalize `{Platform} (attrib : gmap string string)
    : result sms_dict :=
  let d0 : sms_dict := Some <$> attrib in
  d1 ← match attrib !! "date" with
       | Some date => v ← convert_date date; mret (<["date" := v]> d0)
       | None => mret d0
       end;
  let d2 : sms_dict :=
    match attrib !! "address" with
    | Some a => <["address" := Some (Str.strip a)]> d1
    | None => d1
    end in
  let d3 : sms_dict :=
    match attrib !! "body" with
    | Some b =>
        let body := remove_newlines_non_ascii b in
        <["body_md5" := Some (fingerprint body)]> (<["body" := Some body]> d2)
    | None => d2
    end in
  mret d3.

Fixpoint normalize_all `{Platform} (elements : list (gmap string string))
    : result (list sms_dict) :=
  match elements with
  | [] => mret []
  | e :: rest =>
      sms ← normalize e;
      tail ← normalize_all rest;
      mret (sms :: tail)
  end.

(** [parse_sms_xml]: [document] is what reading the file and selecting
    its [sms] elements gives, the attributes of each element or an
    exception; any exception is logged and raised again. *)
Definition parse_sms_xml `{Platform}
    (document : result (list (gmap string string))) : result (list sms_dict) :=
  try_except_all
    (elements ← document; normalize_all elements)
    (fun e => Raise e).

(** ** Record assembler *)

(** [obj.get(key, default)]; only a dict has the method. *)
Definition py_get (obj : pyval) (key : string) (default : pyval)
    : result pyval :=
  match obj with
  | PDict d =>
      Ok (match dict_get key d with Some v => v | None => default end)
  | _ => Raise AttributeError
  end.

(** The dict literal of lines 86-99, given the values of its computed
    entries. *)
Definition analysis_result (sms : sms_dict)
    (llm_output amount type transaction_source destination category : pyval)
    : record :=
  <["date" := of_opt (sms_get sms "date")]>
  (<["source" := of_opt (sms_get sms "address")]>
  (<["body" := of_opt (sms_get sms "body")]>
  (<["body_md5" := of_opt (sms_get sms "body_md5")]>
  (<["llm_output" := llm_output]>
  (<["amount" := amount]>
  (<["type" := type]>
  (<["transaction_source" := transaction_source]>
  (<["destination" := destination]>
  (<["category" := category]> ∅))))))))).

(** Line 94: the amount entry. *)
Definition amount_of (json_analysis : pyval) : result pyval :=
  if truthy json_analysis
  then a ← py_get json_analysis "Amount" (PInt 0);
       f ← floatify a;
       mret (PFloat f)
  else mret (PInt 0).

(** Lines 82-99: the body of the [try] for one message with a non-empty
    body; the entries are evaluated in the order written. *)
Definition assemble `{Platform} (generate : string -> result string)
    (sms : sms_dict) (body : string) : result record :=
  let '(content, json_analysis) := Llama.analyze_sms generate body in
  let llm_output := PStr (json_to_string json_analysis) in
  amount ← amount_of json_analysis;
  type ← py_get json_analysis "Type" (PStr "Unknown");
  transaction_source ← py_get json_analysis "Source" PNone;
  destination ← py_get json_analysis "Destination" PNone;
  category ← py_get json_analysis "Category" (PStr "Unknown");
  mret (analysis_result sms llm_output amount type transaction_source
          destination category).

(** [analyze_sms_list].  The service is an oracle indexed by the number
    of calls made so far; a message with no body makes no call. *)
Fixpoint analyze_sms_list `{Platform} (generate : nat -> string -> result string)
    (calls : nat) (sms_list : list sms_dict) : list record :=
  match sms_list with
  | [] => []
  | sms :: rest =>
      match sms_get sms "body" with
      | None | Some EmptyString => analyze_sms_list generate calls rest
      | Some body =>
          match assemble (generate calls) sms body with
          | Ok analysis_result =>
              analysis_result :: analyze_sms_list generate (S calls) rest
          | Raise _ => analyze_sms_list generate (S calls) rest
          end
      end
  end.

(** Whether [sms.get('body')] is true, and the number of service calls
    a batch makes: one per message with a body. *)
Definition has_body (sms : sms_dict) : bool :=
  match sms_get sms "body" with
  | None | Some EmptyString => false
  | Some _ => true
  end.

Definition calls_made (sms_list : list sms_dict) : nat :=
  List.length (List.filter has_body sms_list).

(** ** Defaulting *)

Definition is_None (v : pyval) : bool :=
  match v with
  | PNone => true
  | _ => false
  end.

Definition defaults : record :=
  <["date" := PNone]>
  (<["source" := PStr ""]>
  (<["destination" := PStr ""]>
  (<["body" := PStr ""]>
  (<["body_md5" := PStr ""]>
  (<["llm_output" := PStr ""]>
  (<["amount" := PFloat (float_of_Z 0)]>
  (<["type" := PStr "Unknown"]>
  (<["transaction_source" := PStr ""]>
  (<["category" := PStr "Unknown"]> ∅))))))))).

(** The entries of [json_obj] whose value is not [None], laid over the
    defaults. *)
Definition ensure_keys (json_obj : record) : record :=
  filter (fun kv => is_None kv.2 = false) json_obj ∪ defaults.

(** ** The relational sink *)

(** SQLite storage classes (no blobs here). *)
Inductive sqlval : Type :=
| SNull
| SInteger (z : Z)
| SReal (f : pyfloat)
| SText (s : string).

(** A UTF-8 encoded surrogate, which a [str] cannot be encoded with:
    byte [0xED] followed by a byte from [0xA0] on. *)
Fixpoint has_surrogate (s : string) : bool :=
  match s with
  | String c r =>
      (Z.eqb (Str.code c) 237 &&
       match r with
       | String c1 _ => 160 <=? Str.code c1
       | EmptyString => false
       end)
      || has_surrogate r
  | EmptyString => false
  end.

(** Binding one parameter of [cursor.execute]: NaN is stored as NULL, an
    [int] must fit 64 bits, a [str] must be encodable (the error is a
    [ValueError] subclass), lists and dicts are refused. *)
Definition bind_param (v : pyval) : result sqlval :=
  match v with
  | PNone => Ok SNull
  | PBool b => Ok (SInteger (if b then 1 else 0))
  | PInt z =>
      if (- 2 ^ 63 <=? z) && (z <? 2 ^ 63) then Ok (SInteger z)
      else Raise OverflowError
  | PFloat FNan => Ok SNull
  | PFloat f => Ok (SReal f)
  | PStr s => if has_surrogate s then Raise ValueError else Ok (SText s)
  | PList _ => Raise BindingError
  | PDict _ => Raise BindingError
  end.

(** A row of table [sms], without the [id] the engine assigns.  A row
    holds the values as bound; the conversion a column's affinity applies
    is modelled where the program depends on it, for the UNIQUE column
    (see [unique_key]). *)
Record row : Type := Row {
  r_date : sqlval;
  r_source : sqlval;
  r_destination : sqlval;
  r_body : sqlval;
  r_body_md5 : sqlval;
  r_llm_output : sqlval;
  r_amount : sqlval;
  r_type : sqlval;
  r_transaction_source : sqlval;
  r_category : sqlval
}.

(** [sms[key]]. *)
Definition item (sms : record) (key : string) : result pyval :=
  match sms !! key with
  | Some v => Ok v
  | None => Raise KeyError
  end.

(** The parameter tuple of the INSERT, bound in order. *)
Definition bind_row (sms : record) : result row :=
  date ← item sms "date";
  source ← item sms "source";
  destination ← item sms "destination";
  body ← item sms "body";
  body_md5 ← item sms "body_md5";
  llm_output ← item sms "llm_output";
  amount ← item sms "amount";
  type ← item sms "type";
  transaction_source ← item sms "transaction_source";
  category ← item sms "category";
  c1 ← bind_param date;
  c2 ← bind_param source;
  c3 ← bind_param destination;
  c4 ← bind_param body;
  c5 ← bind_param body_md5;
  c6 ← bind_param llm_output;
  c7 ← bind_param amount;
  c8 ← bind_param type;
  c9 ← bind_param transaction_source;
  c10 ← bind_param category;
  mret (Row c1 c2 c3 c4 c5 c6 c7 c8 c9 c10).

(** What a TEXT column stores for a bound value: numbers become text. *)
Definition text_affinity `{Platform} (v : sqlval) : sqlval :=
  match v with
  | SInteger z => SText (Json.int_repr z)
  | SReal f => SText (sqlite_real_text f)
  | _ => v
  end.

(** The value the UNIQUE constraint on [body_md5] compares; [None] for
    NULL, which never conflicts. *)
Definition unique_key `{Platform} (r : row) : option string :=
  match text_affinity (r_body_md5 r) with
  | SText s => Some s
  | _ => None
  end.

(** Whether some row of the table has fingerprint [k]. *)
Definition key_in `{Platform} (k : string) (table : list row) : bool :=
  List.existsb
    (fun r => match unique_key r with
              | Some k' => String.eqb k k'
              | None => false
              end) table.

Definition conflicts `{Platform} (new : row) (table : list row) : bool :=
  match unique_key new with
  | Some k => key_in k table
  | None => false
  end.

(** [INSERT OR IGNORE] of a bound row: a row whose fingerprint is already
    there is dropped without error. *)
Definition insert_or_ignore `{Platform} (table : list row) (new : row)
    : list row :=
  if conflicts new table then table else table ++ [new].

(** A connection: the table as last committed, and as the open
    transaction sees it. *)
Record connection : Type := Connection {
  committed : list row;
  working : list row
}.

(** [setup_database]: connect and create the table if it is missing (an
    absent table is an empty one). *)
Definition setup_database (db : list row) : connection := Connection db db.

Definition commit (conn : connection) : connection :=
  Connection (working conn) (working conn).

Definition rollback (conn : connection) : connection :=
  Connection (committed conn) (committed conn).

(** Closing leaves the database as last committed. *)
Definition close (conn : connection) : list row := committed conn.

(** [cursor.execute(insert_query, ...)]: bind, then insert or ignore in
    the open transaction. *)
Definition execute_insert `{Platform} (conn : connection) (sms : record)
    : connection * result unit :=
  match bind_row sms with
  | Ok r =>
      (Connection (committed conn) (insert_or_ignore (working conn) r), Ok tt)
  | Raise e => (conn, Raise e)
  end.

(** The loop of [save_to_sqlite]. *)
Fixpoint insert_all `{Platform} (conn : connection) (output : list record)
    : connection * result unit :=
  match output with
  | [] => (conn, Ok tt)
  | sms :: rest =>
      match execute_insert conn (ensure_keys sms) with
      | (conn', Ok _) => insert_all conn' rest
      | (conn', Raise e) => (conn', Raise e)
      end
  end.

(** [save_to_sqlite] on database [db]: the database afterwards, and the
    outcome. *)
Definition save_to_sqlite `{Platform} (db : list row) (output : list record)
    : list row * result unit :=
  let conn := setup_database db in
  match insert_all conn output with
  | (conn', Ok _) => (close (commit conn'), Ok tt)
  | (conn', Raise e) => (close (rollback conn'), Raise e)
  end.

(** The rows a batch binds before its first failure, and that failure
    if there is one. *)
Fixpoint bound_rows (output : list record) : list row * option exn :=
  match output with
  | [] => ([], None)
  | sms :: rest =>
      match bind_row (ensure_keys sms) with
      | Ok r => let '(rows, failure) := bound_rows rest in (r :: rows, failure)
      | Raise e => ([], Some e)
      end
  end.

(** A record whose fingerprint is a string, or missing or null. *)
Definition has_text_fingerprint (sms : record) : Prop :=
  match sms !! "body_md5" with
  | Some (PStr _) | Some PNone | None => True
  | Some _ => False
  end.

(** ** The flat export *)

Definition fieldnames : list string :=
  [ "date"; "source"; "destination"; "body"; "body_md5"; "llm_output";
    "amount"; "type"; "transaction_source"; "category" ].

(** One row of cells ([DictWriter.writerow]); a key outside [fieldnames]
    is a [ValueError].  Cells are kept as values, not formatted. *)
Definition csv_row (sms : record) : result (list pyval) :=
  if bool_decide (dom sms ⊆ list_to_set fieldnames)
  then Ok (List.map (fun k => default (PStr "") (sms !! k)) fieldnames)
  else Raise ValueError.

(** The rows written so far and the outcome; the header comes first in
    the file and is left implicit. *)
Fixpoint write_rows (written : list (list pyval)) (output : list record)
    : list (list pyval) * result unit :=
  match output with
  | [] => (written, Ok tt)
  | sms :: rest =>
      match csv_row (ensure_keys sms) with
      | Ok cells => write_rows (written ++ [cells]) rest
      | Raise e => (written, Raise e)
      end
  end.

(** [save_to_csv]: the file is truncated when opened. *)
Definition save_to_csv (output : list record)
    : list (list pyval) * result unit :=
  write_rows [] output.

(** ** The run *)

(** [sms_list[:n]]. *)
Definition slice_to {A} (l : list A) (n : Z) : list A :=
  if 0 <=? n then List.firstn (Z.to_nat n) l
  else List.firstn (Z.to_nat (Z.of_nat (List.length l) + n)) l.

(** The state the run leaves behind: the database and the export file
    ([None]: not written by this run). *)
Record sinks : Type := Sinks {
  database : list row;
  export : option (list (list pyval))
}.

(** [main]: any exception is logged and raised again. *)
Definition main `{Platform} (document : result (list (gmap string string)))
    (n : option Z) (generate : nat -> string -> result string)
    (db : list row) : sinks * result unit :=
  match parse_sms_xml document with
  | Raise e => (Sinks db None, Raise e)
  | Ok sms_list =>
      let messages_to_process :=
        match n with
        | Some k => slice_to sms_list k
        | None => sms_list
        end in
      let output := analyze_sms_list generate 0 messages_to_process in
      match save_to_sqlite db output with
      | (db', Raise e) => (Sinks db' None, Raise e)
      | (db', Ok _) =>
          match save_to_csv output with
          | (file, Raise e) => (Sinks db' (Some file), Raise e)
          | (file, Ok _) => (Sinks db' (Some file), Ok tt)
          end
      end
  end.

End Analyze.

(* ===================================================================== *)
(** * The specification's wording of the interpreter *)
(* ===================================================================== *)

Module Spec.




End Spec.

(* ===================================================================== *)
(** * lmstudio.py: the other extraction client *)
(* ===================================================================== *)

Module Lmstudio.

Local Abbreviation q := (String Str.quote EmptyString).
Local Abbreviation nl := (String Str.newline EmptyString).

(** The instruction template of this client, line by line. *)
Definition system_prompt : string :=
  String.concat nl
    [
     "";
     "Analyze the following expense text and output ONLY a JSON object with these fields:";
     "Output: {";
     ("    " ++ q ++ "Amount" ++ q ++ ": float,  # Amount in INR (numeric only, no currency symbols)");
     ("    " ++ q ++ "Source" ++ q ++ ": string, # Account/card number");
     ("    " ++ q ++ "Destination" ++ q ++ ": string, # Recipient");
     ("    " ++ q ++ "ExpenseType" ++ q ++ ": string # Must be one of: [" ++ q ++ "House Rent/EMI" ++ q ++ "," ++ q ++ "Utility Bills" ++ q ++ "," ++ q ++ "Groceries and Household Items" ++ q ++ "," ++ q ++ "Transportation" ++ q ++ "," ++ q ++ "Healthcare" ++ q ++ "," ++ q ++ "Education Expenses" ++ q ++ "," ++ q ++ "Mobile and Internet Bills" ++ q ++ "," ++ q ++ "Personal Care and Clothing" ++ q ++ "," ++ q ++ "Entertainment and Recreation" ++ q ++ "," ++ q ++ "Savings and Investments" ++ q ++ "]");
     "}";
     "";
     "Requirements:";
     "1. Return ONLY the JSON object, no additional text";
     "2. If expense type is unclear, exclude that message entirely";
     ("3. Amount should be numeric only (no " ++ q ++ "Rs" ++ q ++ " or other symbols)");
     ("4. Format numbers as floats (e.g., 480.0 not " ++ q ++ "480" ++ q ++ ")");
     "5. If the message is not an expense, return null for all fields";
     "6. If the message is not clear, return null for all fields";
     "7. Don't return any python code or other text";
     "8. If the message is reminder for bill payment, return null for all fields";
     "9. If the message is receipt of payment of credit card bill, return null for all fields";
     ""
    ].

(** Lines 53-64: from the raw text to the structured object; without a
    match of the pattern the object is [None]. *)
Definition interpret (content : string) : result pyval :=
  match Llama.re_search content with
  | Some group0 =>
      try_except (Json.loads group0) [JSONDecodeError] (fun _ =>
        try_except (Json.loads content) [JSONDecodeError] (fun _ =>
          Ok PNone))
  | None => Ok PNone
  end.

(** [analyze_sms]: [create] is the chat completion call, given the system
    and the user message and returning the content of the first choice,
    or raising; nothing is caught here. *)
Definition analyze_sms (create : string -> string -> result string)
    (sms : string) : result (string * pyval) :=
  content ← create system_prompt sms;
  json_obj ← interpret content;
  mret (content, json_obj).

End Lmstudio.

(* ===================================================================== *)
(** * Shapes of texts, records and tables *)
(* ===================================================================== *)

Module Shape.
Import Analyze.

(** A character the cleaning lets through unchanged. *)
Definition is_clean_char (c : ascii) : bool :=
  (Str.code c <? 128) && negb (Ascii.eqb c Str.newline)
  && negb (Ascii.eqb c Str.quote) && negb (Ascii.eqb c Str.apostrophe).

(** ASCII text with no newline and no quote character. *)
Definition is_clean (s : string) : bool := Str.forallb is_clean_char s.

(** The fingerprints a table holds, NULLs left out. *)
Definition keys `{Platform} (table : list row) : list string :=
  omap unique_key table.

(** The UNIQUE constraint: no fingerprint occurs twice. *)
Definition unique_keys `{Platform} (table : list row) : Prop :=
  NoDup (keys table).

(** A record with no field beyond the ten columns. *)
Definition only_columns (sms : record) : Prop :=
  dom sms ⊆ list_to_set fieldnames.

(** A record with a non-null field that is not a column. *)
Definition stray_field (sms : record) : Prop :=
  exists k v, ~ In k fieldnames /\ sms !! k = Some v /\ v <> PNone.

(** The cells of the export row of a record. *)
Definition cells (sms : record) : list pyval :=
  List.map (fun k => default (PStr "") (ensure_keys sms !! k)) fieldnames.

(** A value the amount entry can hold: the integer 0 or a float. *)
Definition is_amount (v : pyval) : Prop :=
  v = PInt 0 \/ exists f, v = PFloat f.

End Shape.

(* ===================================================================== *)
(** * Values that [json.dumps] writes the same on every host *)
(* ===================================================================== *)

Module Plain.


(** Text that follows a value inside a document: nothing, or a comma, a
    closing bracket or a closing brace. *)
Definition delimited (rest : string) : bool :=
  match rest with
  | EmptyString => true
  | String c _ => Ascii.eqb c "," || Ascii.eqb c "]" || Ascii.eqb c "}"
  end.








End Plain.

(* ===================================================================== *)
(** * Concrete inputs used by the examples *)
(* ===================================================================== *)

Module Sample.
Import Analyze.

(** A host that prints every float as [0.0] and every time as the epoch;
    any other would do for the examples. *)
Definition platform : Platform := {|
  float_repr := fun _ => "0.0";
  local_strftime := fun _ => Ok "1970-01-01 00:00:00";
  sqlite_real_text := fun _ => "0.0"
|}.

(** The attributes of one [sms] element. *)
Definition attrib (date address body : string) : gmap string string :=
  <["date" := date]> (<["address" := address]> (<["body" := body]> ∅)).

(** A message as the normaliser leaves it, with no date. *)
Definition message (address body : string) : sms_dict :=
  <["address" := Some address]>
  (<["body" := Some body]>
  (<["body_md5" := Some (fingerprint body)]> ∅)).

(** A service that always answers [text]. *)
Definition always (text : string) : nat -> string -> result string :=
  fun _ _ => Ok text.

(** A service that gives the listed answers in turn, then fails. *)
Definition script (replies : list string) : nat -> string -> result string :=
  fun call _ =>
    match List.nth_error replies call with
    | Some text => Ok text
    | None => Raise ServiceError
    end.

(** A string between double quotes. *)
Definition quoted (s : string) : string :=
  String Str.quote s ++ String Str.quote EmptyString.

(** [{"Amount": null, "Type": "Debit"}]. *)
Definition null_amount_reply : string :=
  "{" ++ quoted "Amount" ++ ": null, " ++ quoted "Type" ++ ": "
      ++ quoted "Debit" ++ "}".

(** [{"Amount": 480.0, "Type": null, "Category": ["Groceries"]}]. *)
Definition null_type_reply : string :=
  "{" ++ quoted "Amount" ++ ": 480.0, " ++ quoted "Type" ++ ": null, "
      ++ quoted "Category" ++ ": [" ++ quoted "Groceries" ++ "]}".

(** [{"Amount": 480.0, "Type": "Debit", "Category": "Groceries"}]. *)
Definition debit_reply : string :=
  "{" ++ quoted "Amount" ++ ": 480.0, " ++ quoted "Type" ++ ": "
      ++ quoted "Debit" ++ ", " ++ quoted "Category" ++ ": "
      ++ quoted "Groceries" ++ "}".

(** Prose around an object on one line. *)
Definition chatty_reply : string := "Sure: " ++ debit_reply ++ " Done.".

(** The first sentinel phrase between double quotes, as the template
    spells it. *)
Definition quoted_sentinel : string := quoted "Not expense".

(** Braces around something that is not JSON. *)
Definition broken_reply : string := "{oops}".

(** An empty object, a newline, a stray closing brace. *)
Definition two_line_text : string :=
  "{}" ++ String Str.newline "}".

(** A one followed by four hundred zeros. *)
Definition huge_date : string :=
  String "1" (string_of_list_ascii (List.repeat "0"%char 400)).

(** Two different texts of letters and digits with the same MD5 digest. *)
Definition collide_a : string :=
  "TEXTCOLLBYfGiJUETHQ4hAcKSMd5zYpgqf1YRDhkmxHkhPWptrkoyz28wnI9V0aHeAuaKnak".
Definition collide_b : string :=
  "TEXTCOLLBYfGiJUETHQ4hEcKSMd5zYpgqf1YRDhkmxHkhPWptrkoyz28wnI9V0aHeAuaKnak".


End Sample.

(* ===================================================================== *)
(** * Properties *)
(* ===================================================================== *)

(** ** Checks of the library models against known values *)

Example float_480 : Builtins.float (PStr "480") = Ok (float_of_Z 480).
Proof. reflexivity. Qed.
Example float_480_0 : Builtins.float (PStr " 4_80.0e0 ") = Ok (float_of_Z 480).
Proof. vm_compute. reflexivity. Qed.
Example float_Rs480 : Builtins.float (PStr "Rs480") = Raise ValueError.
Proof. reflexivity. Qed.
Example float_half : Builtins.float (PStr "-.5") = Ok (FFin (-1 # 2)).
Proof. vm_compute. reflexivity. Qed.
Example float_big : Builtins.float (PStr "1e400") = Ok (FInf false).
Proof. vm_compute. reflexivity. Qed.
Example int_ex : Builtins.int_of_str " -1_000 " = Ok (-1000).
Proof. reflexivity. Qed.
Example int_bad : Builtins.int_of_str "12a" = Raise ValueError.
Proof. reflexivity. Qed.

Example md5_empty : Md5.hexdigest "" = "d41d8cd98f00b204e9800998ecf8427e".
Proof. vm_compute. reflexivity. Qed.
Example md5_abc : Md5.hexdigest "abc" = "900150983cd24fb0d6963f7d28e17f72".
Proof. vm_compute. reflexivity. Qed.
Example md5_two_blocks :
  Md5.hexdigest
    "12345678901234567890123456789012345678901234567890123456789012345678901234567890"
  = "57edf4a22be3c955ac49da2e2107b67a".
Proof. vm_compute. reflexivity. Qed.

Example loads_object :
  Json.loads Sample.debit_reply
  = Ok (PDict [("Amount", PFloat (float_of_Z 480)); ("Type", PStr "Debit");
               ("Category", PStr "Groceries")]).
Proof. vm_compute. reflexivity. Qed.

Example loads_trailing_comma : Json.loads "[1,]" = Raise JSONDecodeError.
Proof. reflexivity. Qed.

Example loads_nested : Json.loads " [[], {}, null] "
  = Ok (PList [PList []; PDict []; PNone]).
Proof. reflexivity. Qed.

(** ** The decoder always returns *)

Section JsonDecoder.
Import Str Json.

Lemma drop_while_length p s :
  (String.length (drop_while p s) <= String.length s)%nat.
Proof.
  induction s as [|c r IH]; simpl; [lia|].
  destruct (p c); simpl; lia.
Qed.

Lemma skip_ws_length s : (String.length (skip_ws s) <= String.length s)%nat.
Proof. apply drop_while_length. Qed.

Lemma strip_prefix_length p s r :
  strip_prefix p s = Some r ->
  String.length s = (String.length p + String.length r)%nat.
Proof.
  revert s; induction p as [|a p IH]; intros s H; simpl in *.
  - congruence.
  - destruct s as [|b s]; [discriminate|].
    destruct (Ascii.eqb a b); [|discriminate].
    simpl. rewrite (IH _ H). reflexivity.
Qed.

Lemma span_digits_length s d t :
  span_digits s = (d, t) -> (String.length t <= String.length s)%nat.
Proof.
  revert d t; induction s as [|c r IH]; intros d t H; simpl in *.
  - injection H as <- <-. simpl. lia.
  - destruct (is_digit c).
    + destruct (span_digits r) as [d' t'] eqn:E.
      injection H as <- <-. specialize (IH _ _ eq_refl). lia.
    + injection H as <- <-. simpl. lia.
Qed.

Lemma prepend_some p r x t :
  prepend p r = Some (x, t) -> exists y, r = Some (y, t).
Proof.
  destruct r as [[y t']|]; simpl; [|discriminate].
  intros H; injection H as _ <-. eauto.
Qed.

Lemma scanstring_length_aux n :
  forall s x t, (String.length s <= n)%nat ->
    scanstring s = Some (x, t) -> (String.length t < String.length s)%nat.
Proof.
  induction n as [|n IH]; intros s x t Hn H.
  - destruct s; simpl in *; [discriminate|lia].
  - destruct s as [|c r]; [discriminate|].
    simpl in H, Hn.
    destruct (Ascii.eqb c quote).
    { injection H as _ <-. simpl. lia. }
    destruct (Ascii.eqb c backslash).
    2:{ destruct (code c <? 32); [discriminate|].
        apply prepend_some in H as [y H].
        apply IH in H; simpl; lia. }
    destruct r as [|e r1]; [discriminate|].
    destruct (Ascii.eqb e "u").
    2:{ destruct (simple_escape e); [|discriminate].
        apply prepend_some in H as [y H].
        apply IH in H; simpl in *; lia. }
    destruct r1 as [|h1 [|h2 [|h3 [|h4 r2]]]]; try discriminate.
    destruct (hex4 h1 h2 h3 h4); [|discriminate].
    simpl in Hn.
    assert (Hr2 : forall y, scanstring r2 = Some (y, t) ->
                 (String.length t < String.length r2)%nat).
    { intros y Hy. apply IH in Hy; lia. }
    destruct ((55296 <=? z) && (z <=? 56319)).
    2:{ apply prepend_some in H as [y H]. apply Hr2 in H. simpl. lia. }
    destruct r2 as [|b [|u [|g1 [|g2 [|g3 [|g4 r3]]]]]];
      try (apply prepend_some in H as [y H]; apply Hr2 in H; simpl in *; lia).
    destruct (low_surrogate _).
    + destruct p as [lo ?].
      apply prepend_some in H as [y H]. apply IH in H; simpl in *; lia.
    + apply prepend_some in H as [y H]; apply Hr2 in H; simpl in *; lia.
Qed.

Lemma scanstring_length s x t :
  scanstring s = Some (x, t) -> (String.length t < String.length s)%nat.
Proof. apply (scanstring_length_aux (String.length s)). lia. Qed.

Lemma scan_number_length s v t :
  scan_number s = Some (v, t) -> (String.length t < String.length s)%nat.
Proof.
  unfold scan_number.
  set (hd := match s with
             | String c r => if Ascii.eqb c "-" then (true, r) else (false, s)
             | EmptyString => (false, s)
             end).
  assert (Hhd : (String.length (snd hd) <= String.length s)%nat).
  { subst hd. destruct s as [|c r]; simpl; [lia|].
    destruct (Ascii.eqb c "-"); simpl; lia. }
  destruct hd as [neg s1]. simpl in Hhd.
  destruct s1 as [|c r]; [discriminate|].
  destruct (is_digit c); [|discriminate].
  set (ip := if Ascii.eqb c "0" then (String c EmptyString, r)
             else let '(d, t0) := span_digits r in (String c d, t0)).
  assert (Hip : (String.length (snd ip) <= String.length r)%nat).
  { subst ip. destruct (Ascii.eqb c "0"); simpl; [lia|].
    destruct (span_digits r) as [d t0] eqn:E. simpl.
    eapply span_digits_length; eauto. }
  destruct ip as [int_digits t0]. simpl in Hip.
  set (fp := match t0 with
             | String p r1 => _
             | EmptyString => _
             end).
  assert (Hfp : (String.length (snd fp) <= String.length t0)%nat).
  { subst fp. destruct t0 as [|p r1]; simpl; [lia|].
    destruct (Ascii.eqb p "."); simpl; [|lia].
    destruct (span_digits r1) as [d t'] eqn:E.
    apply span_digits_length in E.
    destruct d; simpl; lia. }
  destruct fp as [frac t1]. simpl in Hfp.
  set (ep := match t1 with
             | String e r1 => _
             | EmptyString => _
             end).
  assert (Hep : (String.length (snd ep) <= String.length t1)%nat).
  { subst ep. destruct t1 as [|e r1]; simpl; [lia|].
    destruct (Ascii.eqb e "e" || Ascii.eqb e "E"); simpl; [|lia].
    set (sg := match r1 with
               | String g r2 => _
               | EmptyString => _
               end).
    assert (Hsg : (String.length (snd sg) <= String.length r1)%nat).
    { subst sg. destruct r1 as [|g r2]; simpl; [lia|].
      destruct (Ascii.eqb g "-"); simpl; [lia|].
      destruct (Ascii.eqb g "+"); simpl; lia. }
    destruct sg as [eneg r2]. simpl in Hsg.
    destruct (span_digits r2) as [d t'] eqn:E.
    apply span_digits_length in E.
    destruct d; simpl; lia. }
  destruct ep as [exp t2]. simpl in Hep.
  intros H.
  assert (t = t2) as ->.
  { destruct frac, exp; injection H; auto. }
  simpl in *. lia.
Qed.

Lemma scan_literal_length s v t :
  scan_literal s = Some (v, t) -> (String.length t < String.length s)%nat.
Proof.
  unfold scan_literal. intros H.
  repeat match type of H with
  | match strip_prefix ?p s with _ => _ end = _ =>
      let E := fresh "E" in
      destruct (strip_prefix p s) eqn:E;
      [ injection H as _ <-; apply strip_prefix_length in E; simpl in E; lia | ]
  | match scan_number s with _ => _ end = _ =>
      let E := fresh "E" in
      destruct (scan_number s) as [[? ?]|] eqn:E;
      [ injection H as _ <-; apply scan_number_length in E; exact E | ]
  end.
  discriminate.
Qed.

Lemma scan_progress_error s : scan_progress DecodeError s.
Proof. split; [discriminate|]. intros ? ? ?; discriminate. Qed.

Lemma scan_progress_scanned v t s :
  (String.length t < String.length s)%nat -> scan_progress (Scanned v t) s.
Proof.
  intros Hlt; split; [discriminate|].
  intros ? ? H; injection H as _ <-. exact Hlt.
Qed.

Lemma scan_progress_shorter r s s' :
  (String.length s <= String.length s')%nat ->
  scan_progress r s -> scan_progress r s'.
Proof.
  intros Hle [Hf Hl]; split; [exact Hf|].
  intros v t E. specialize (Hl v t E). lia.
Qed.

Lemma scan_fuel fuel :
  (forall s, (2 * String.length s < fuel)%nat ->
     scan_progress (scan_once fuel s) s) /\
  (forall acc s, (2 * String.length s < fuel)%nat ->
     scan_progress (object_members fuel acc s) s) /\
  (forall acc s, (2 * String.length s + 1 < fuel)%nat ->
     scan_progress (array_items fuel acc s) s).
Proof.
  induction fuel as [|n (IHv & IHo & IHa)].
  { repeat split; intros; lia. }
  split; [|split].
  - (* scan_once *)
    intros s Hf. simpl.
    destruct s as [|c r]; [apply scan_progress_error|].
    simpl in Hf.
    destruct (Ascii.eqb c quote).
    { destruct (scanstring r) as [[str t]|] eqn:E;
        [|apply scan_progress_error].
      apply scanstring_length in E.
      apply scan_progress_scanned. simpl. lia. }
    destruct (Ascii.eqb c "{").
    { pose proof (skip_ws_length r) as Hw.
      destruct (skip_ws r) as [|c1 r1]; [apply scan_progress_error|].
      simpl in Hw.
      destruct (Ascii.eqb c1 "}").
      { apply scan_progress_scanned. simpl. lia. }
      destruct (Ascii.eqb c1 quote); [|apply scan_progress_error].
      eapply scan_progress_shorter; [|apply IHo; lia].
      simpl. lia. }
    destruct (Ascii.eqb c "[").
    { pose proof (skip_ws_length r) as Hw.
      destruct (skip_ws r) as [|c1 r1]; [apply scan_progress_error|].
      destruct (Ascii.eqb c1 "]").
      { apply scan_progress_scanned. simpl in *. lia. }
      eapply scan_progress_shorter; [|apply IHa; lia].
      simpl in *. lia. }
    destruct (scan_literal (String c r)) as [[v t]|] eqn:E;
      [|apply scan_progress_error].
    apply scan_literal_length in E. apply scan_progress_scanned. exact E.
  - (* object_members *)
    intros acc s Hf. simpl.
    destruct (scanstring s) as [[key t]|] eqn:E; [|apply scan_progress_error].
    apply scanstring_length in E.
    pose proof (skip_ws_length t) as Hw.
    destruct (skip_ws t) as [|c r]; [apply scan_progress_error|].
    simpl in Hw.
    destruct (Ascii.eqb c ":"); [|apply scan_progress_error].
    pose proof (skip_ws_length r) as Hw1.
    destruct (IHv (skip_ws r) ltac:(lia)) as [Hnf Hlen].
    destruct (scan_once n (skip_ws r)) as [v t1| |] eqn:Ev;
      [|apply scan_progress_error|congruence].
    specialize (Hlen _ _ eq_refl).
    pose proof (skip_ws_length t1) as Hw2.
    destruct (skip_ws t1) as [|c2 r2]; [apply scan_progress_error|].
    simpl in Hw2.
    destruct (Ascii.eqb c2 "}").
    { apply scan_progress_scanned. lia. }
    destruct (Ascii.eqb c2 ","); [|apply scan_progress_error].
    pose proof (skip_ws_length r2) as Hw3.
    destruct (skip_ws r2) as [|c3 r3]; [apply scan_progress_error|].
    simpl in Hw3.
    destruct (Ascii.eqb c3 quote); [|apply scan_progress_error].
    eapply scan_progress_shorter; [|apply IHo; lia]. lia.
  - (* array_items *)
    intros acc s Hf. simpl.
    destruct (IHv s ltac:(lia)) as [Hnf Hlen].
    destruct (scan_once n s) as [v t| |] eqn:Ev;
      [|apply scan_progress_error|congruence].
    specialize (Hlen _ _ eq_refl).
    pose proof (skip_ws_length t) as Hw.
    destruct (skip_ws t) as [|c r]; [apply scan_progress_error|].
    simpl in Hw.
    destruct (Ascii.eqb c "]").
    { apply scan_progress_scanned. lia. }
    destruct (Ascii.eqb c ","); [|apply scan_progress_error].
    pose proof (skip_ws_length r) as Hw1.
    eapply scan_progress_shorter; [|apply IHa; lia]. lia.
Qed.

(** The budget [loads] gives the decoder is never exhausted: an error
    from [loads] is a decode error. *)
Lemma decode_fuel s : decode (fuel_for s) s <> OutOfFuel.
Proof.
  unfold decode, fuel_for.
  destruct (strip_prefix bom s); [discriminate|].
  pose proof (skip_ws_length s) as Hw.
  destruct (proj1 (scan_fuel (S (S (2 * String.length s)))) (skip_ws s)
              ltac:(lia)) as [Hnf _].
  destruct (scan_once _ (skip_ws s)) as [v t| |]; [|discriminate|congruence].
  destruct (skip_ws t); discriminate.
Qed.

End JsonDecoder.

(** ** The response interpreter *)

Section Interpreter.
Import Llama.

Lemma upto_last_brace_split s m :
  upto_last_brace s = Some m ->
  exists m' post,
    s = m ++ post /\ m = m' ++ "}" /\ has_newline m = false /\
    upto_last_brace post = None.
Proof.
  revert m; induction s as [|c r IH]; intros m H; simpl in H; [discriminate|].
  destruct (Ascii.eqb c Str.newline) eqn:Enl; [discriminate|].
  destruct (upto_last_brace r) as [m0|] eqn:E.
  - injection H as <-.
    destruct (IH _ eq_refl) as (m' & post & -> & -> & Hnl & Hpost).
    exists (String c m'), post. repeat split; auto.
    unfold has_newline in *. cbn [Str.existsb].
    rewrite Enl. exact Hnl.
  - destruct (Ascii.eqb c "}") eqn:Ec; [|discriminate].
    injection H as <-. apply Ascii.eqb_eq in Ec as ->.
    exists EmptyString, r. repeat split; auto.
Qed.

Lemma re_search_split s g :
  re_search s = Some g ->
  exists pre m post,
    s = pre ++ g ++ post /\ g = String "{" (m ++ "}") /\
    has_newline m = false /\
    upto_last_brace post = None /\
    forall p1 rest, s = p1 ++ String "{" rest ->
      (String.length p1 < String.length pre)%nat ->
      upto_last_brace rest = None.
Proof.
  revert g; induction s as [|c r IH]; intros g H; simpl in H; [discriminate|].
  assert (Hrec : re_search r = Some g ->
            (Ascii.eqb c "{" = true -> upto_last_brace r = None) ->
            exists pre m post,
              String c r = pre ++ g ++ post /\ g = String "{" (m ++ "}") /\
              has_newline m = false /\ upto_last_brace post = None /\
              forall p1 rest, String c r = p1 ++ String "{" rest ->
                (String.length p1 < String.length pre)%nat ->
                upto_last_brace rest = None).
  { intros Hr Hc.
    destruct (IH _ Hr) as (pre & m & post & -> & -> & Hnl & Hpost & Hleft).
    exists (String c pre), m, post. repeat split; auto.
    intros p1 rest Heq Hlen.
    destruct p1 as [|a p1]; simpl in Heq.
    - injection Heq as -> <-. apply Hc. reflexivity.
    - injection Heq as _ Heq. apply (Hleft p1 rest Heq). simpl in Hlen. lia. }
  destruct (Ascii.eqb c "{") eqn:Ec.
  - destruct (upto_last_brace r) as [m0|] eqn:E.
    + injection H as <-. apply Ascii.eqb_eq in Ec as ->.
      destruct (upto_last_brace_split _ _ E) as (m' & post & -> & -> & Hnl & Hp).
      exists EmptyString, m', post. repeat split; auto.
      * unfold has_newline in *.
        clear -Hnl. induction m' as [|a m' IHm]; cbn [Str.existsb append] in *;
          [reflexivity|].
        apply orb_false_iff in Hnl as [Ha Hr]. rewrite Ha. auto.
      * intros p1 rest _ Hlen. simpl in Hlen. lia.
    + apply Hrec; auto.
  - apply Hrec; auto. discriminate.
Qed.




(** [loads] raises nothing but [JSONDecodeError]. *)
Lemma loads_raises s e : Json.loads s = Raise e -> e = JSONDecodeError.
Proof.
  unfold Json.loads. destruct (Json.decode _ s); congruence.
Qed.

(** The interpreter always returns. *)
Lemma interpret_total content : exists v, interpret content = Ok v.
Proof.
  unfold interpret.
  destruct (re_search content) as [g|].
  - destruct (Json.loads g) as [v|e] eqn:E1; simpl; [eauto|].
    apply loads_raises in E1 as ->. simpl.
    destruct (Json.loads content) as [v|e] eqn:E2; simpl; [eauto|].
    apply loads_raises in E2 as ->. simpl. eauto.
  - destruct (Json.loads content); simpl; eauto.
Qed.

Lemma interpret_match content g :
  re_search content = Some g ->
  interpret content =
    Ok match Json.loads g with
       | Ok v => v
       | Raise _ =>
           match Json.loads content with
           | Ok v => v
           | Raise _ => PNone
           end
       end.
Proof.
  intros Hg. unfold interpret. rewrite Hg.
  destruct (Json.loads g) as [v|e] eqn:E1; simpl; [reflexivity|].
  apply loads_raises in E1 as ->. simpl.
  destruct (Json.loads content) as [v|e] eqn:E2; simpl; [reflexivity|].
  apply loads_raises in E2 as ->. reflexivity.
Qed.


Lemma analyze_sms_reply generate sms content :
  generate (prompt_for sms) = Ok content ->
  exists v, interpret content = Ok v /\ analyze_sms generate sms = (content, v).
Proof.
  intros Hg. destruct (interpret_total content) as [v Hv].
  exists v. split; [exact Hv|].
  unfold analyze_sms. rewrite Hg. simpl. rewrite Hv. reflexivity.
Qed.

Lemma analyze_sms_failure generate sms e :
  generate (prompt_for sms) = Raise e ->
  analyze_sms generate sms = (EmptyString, PNone).
Proof. intros Hg. unfold analyze_sms. rewrite Hg. reflexivity. Qed.

Lemma sentinels_interpret :
  Forall (fun phrase => interpret phrase = Ok (PDict [])) sentinels.
Proof. repeat constructor. Qed.


End Interpreter.



(** ** The record assembler *)

Section Assembly.
Import Llama Analyze.
Context `{Platform}.

Lemma float_of_str_raises s e :
  Builtins.float_of_str s = Raise e -> e = ValueError.
Proof.
  unfold Builtins.float_of_str.
  destruct (Builtins.sign (Str.strip_with Str.is_c_space s)) as [neg s1].
  destruct (_ || _); [discriminate|].
  destruct (String.eqb _ "nan"); [discriminate|].
  destruct (Builtins.decimal s1) as [[[m nf] [|c rest]]|]; try congruence.
  destruct (Builtins.exponent _) as [[e0 [|c' r']]|]; congruence.
Qed.

(** A string amount never makes [floatify] raise. *)
Lemma floatify_str s :
  floatify (PStr s) =
    Ok match Builtins.float_of_str s with
       | Ok f => f
       | Raise _ => float_of_Z 0
       end.
Proof.
  unfold floatify. simpl.
  destruct (Builtins.float_of_str s) as [f|e] eqn:E; [reflexivity|].
  apply float_of_str_raises in E as ->. reflexivity.
Qed.

Lemma amount_of_empty : amount_of (PDict []) = Ok (PInt 0).
Proof. reflexivity. Qed.

Lemma amount_of_dict k v d :
  amount_of (PDict ((k, v) :: d)) =
    (f ← floatify (default (PInt 0) (dict_get "Amount" ((k, v) :: d)));
     mret (PFloat f)).
Proof.
  unfold amount_of. cbn [truthy py_get].
  destruct (dict_get "Amount" ((k, v) :: d)); reflexivity.
Qed.

(** What [assemble] returns once the reply has been interpreted as a
    dict: only the amount can fail. *)
Lemma assemble_dict generate sms body content d :
  analyze_sms generate body = (content, PDict d) ->
  assemble generate sms body =
    (amount ← amount_of (PDict d);
     mret (analysis_result sms (PStr (json_to_string (PDict d))) amount
             (default (PStr "Unknown") (dict_get "Type" d))
             (default PNone (dict_get "Source" d))
             (default PNone (dict_get "Destination" d))
             (default (PStr "Unknown") (dict_get "Category" d)))).
Proof.
  intros Ha. unfold assemble. rewrite Ha.
  destruct (amount_of (PDict d)) as [a|e]; [|reflexivity].
  cbn [mbind result_bind Py.bind py_get mret result_ret].
  destruct (dict_get "Type" d), (dict_get "Source" d),
    (dict_get "Destination" d), (dict_get "Category" d); reflexivity.
Qed.

(** Anything but a dict has no [get]: the assembly raises. *)
Lemma assemble_not_dict generate sms body content j :
  analyze_sms generate body = (content, j) ->
  (forall d, j <> PDict d) ->
  assemble generate sms body = Raise AttributeError.
Proof.
  intros Ha Hj. unfold assemble. rewrite Ha.
  unfold amount_of.
  destruct j as [| b | z | f | s | l | d]; try (exfalso; eapply Hj; reflexivity).
  - reflexivity.
  - destruct b; reflexivity.
  - cbn [truthy]. destruct (negb _); reflexivity.
  - cbn [truthy]. destruct f; try reflexivity. destruct (negb _); reflexivity.
  - cbn [truthy]. destruct (negb _); reflexivity.
  - destruct l; reflexivity.
Qed.

Lemma analyze_sms_list_no_body generate calls sms rest :
  has_body sms = false ->
  analyze_sms_list generate calls (sms :: rest)
  = analyze_sms_list generate calls rest.
Proof.
  unfold has_body. cbn [analyze_sms_list].
  destruct (sms_get sms "body") as [[|c b]|]; congruence.
Qed.

Lemma analyze_sms_list_body generate calls sms rest body :
  sms_get sms "body" = Some body -> body <> EmptyString ->
  has_body sms = true /\
  analyze_sms_list generate calls (sms :: rest)
  = match assemble (generate calls) sms body with
    | Ok r => r :: analyze_sms_list generate (S calls) rest
    | Raise _ => analyze_sms_list generate (S calls) rest
    end.
Proof.
  intros Hb Hne. unfold has_body. cbn [analyze_sms_list]. rewrite Hb.
  destruct body; [congruence|]. split; reflexivity.
Qed.

Lemma analyze_sms_list_app generate calls l1 l2 :
  analyze_sms_list generate calls (l1 ++ l2)
  = (analyze_sms_list generate calls l1
     ++ analyze_sms_list generate (calls + calls_made l1) l2)%list.
Proof.
  revert calls; induction l1 as [|sms l1 IH]; intros calls.
  - unfold calls_made. simpl. rewrite Nat.add_0_r. reflexivity.
  - unfold calls_made in *. cbn [List.filter app].
    destruct (has_body sms) eqn:Hb.
    + unfold has_body in Hb. cbn [analyze_sms_list].
      destruct (sms_get sms "body") as [[|c b]|]; try discriminate.
      cbn [List.length]. rewrite <- Nat.add_succ_comm.
      destruct (assemble _ _ _); rewrite IH; reflexivity.
    + rewrite !analyze_sms_list_no_body by exact Hb.
      apply IH.
Qed.

(** C1.  The specification asks that a reply equal to one of the sentinel
    phrases produce no record.  The code does otherwise: such a reply has
    no braces and is not JSON, the interpreter returns an empty dict for
    it, and the assembler appends a record with amount 0 and type and
    category "Unknown" for the message. *)
Theorem sentinel_reply_is_recorded generate calls sms rest body phrase :
  In phrase sentinels ->
  sms_get sms "body" = Some body -> body <> EmptyString ->
  generate calls (prompt_for body) = Ok phrase ->
  interpret phrase = Ok (PDict []) /\
  analyze_sms_list generate calls (sms :: rest)
  = analysis_result sms (PStr "{}") (PInt 0) (PStr "Unknown") PNone PNone
      (PStr "Unknown")
    :: analyze_sms_list generate (S calls) rest.
Proof.
  intros Hin Hb Hne Hg.
  assert (Hi : interpret phrase = Ok (PDict [])).
  { pose proof sentinels_interpret as Hall.
    rewrite List.Forall_forall in Hall. apply Hall, Hin. }
  split; [exact Hi|].
  destruct (analyze_sms_list_body generate calls sms rest body Hb Hne)
    as [_ ->].
  destruct (analyze_sms_reply _ _ _ Hg) as (v & Hv & Ha).
  rewrite Hi in Hv. injection Hv as <-.
  rewrite (assemble_dict _ sms _ _ _ Ha). reflexivity.
Qed.

(** C5.  The amount "480" coerces to 480.0, "Rs480" to 0.0 and an absent
    amount gives 0.0, as the specification says; but not every
    non-numeric amount yields 0.0: [floatify] catches [ValueError] only,
    so a null amount raises [TypeError], the assembly of the record is
    aborted and the message yields no record. *)
Theorem amount_coercion_cases :
  floatify (PStr "480") = Ok (float_of_Z 480) /\
  floatify (PStr "Rs480") = Ok (float_of_Z 0) /\
  amount_of (PDict [("Type", PStr "Debit")]) = Ok (PFloat (float_of_Z 0)) /\
  floatify PNone = Raise TypeError /\
  amount_of (PDict [("Amount", PNone); ("Type", PStr "Debit")])
  = Raise TypeError /\
  analyze_sms_list (Sample.always Sample.null_amount_reply) 0
    [Sample.message "SBI" "Paid Rs480 to shop"] = [].
Proof.
  repeat split; vm_compute; reflexivity.
Qed.

(** C9.  A message whose body is missing or empty, or whose interpreted
    object is [None], is skipped by [analyze_sms_list]: the output of the
    batch is the output of the messages before it followed by the output
    of the messages after it, the message alone gives an empty output,
    so nothing of it is persisted, and the batch goes on. *)
Theorem unusable_message_is_skipped generate calls pre sms post db :
  (has_body sms = false \/
   exists body, sms_get sms "body" = Some body /\ body <> EmptyString /\
     snd (analyze_sms (generate (calls + calls_made pre)%nat) body) = PNone) ->
  analyze_sms_list generate calls (pre ++ sms :: post)
  = (analyze_sms_list generate calls pre
     ++ analyze_sms_list generate (calls + calls_made (pre ++ [sms])) post)%list
  /\ analyze_sms_list generate (calls + calls_made pre) [sms] = []
  /\ save_to_sqlite db
       (analyze_sms_list generate (calls + calls_made pre) [sms])
     = (db, Ok tt).
Proof.
  intros Hcase.
  assert (Hc : calls_made (pre ++ [sms])
               = (calls_made pre + if has_body sms then 1 else 0)%nat).
  { unfold calls_made. rewrite List.filter_app, List.length_app. simpl.
    destruct (has_body sms); reflexivity. }
  assert (Hone : analyze_sms_list generate (calls + calls_made pre) [sms] = []
                 /\ analyze_sms_list generate (calls + calls_made pre)
                      (sms :: post)
                    = analyze_sms_list generate
                        (calls + calls_made (pre ++ [sms])) post).
  { rewrite Hc. destruct Hcase as [Hnb | (body & Hb & Hne & Hnone)].
    - rewrite !analyze_sms_list_no_body by exact Hnb.
      rewrite Hnb, !Nat.add_0_r. split; reflexivity.
    - destruct (analyze_sms_list_body generate (calls + calls_made pre) sms
                  post body Hb Hne) as [Hhb ->].
      destruct (analyze_sms_list_body generate (calls + calls_made pre) sms []
                  body Hb Hne) as [_ ->].
      destruct (analyze_sms (generate (calls + calls_made pre)%nat) body)
        as [content j] eqn:Ha.
      simpl in Hnone. subst j.
      rewrite (assemble_not_dict _ sms _ _ _ Ha) by discriminate.
      rewrite Hhb. replace (calls + (calls_made pre + 1))%nat
        with (S (calls + calls_made pre)) by lia.
      split; reflexivity. }
  destruct Hone as [Hnil Hrest].
  rewrite analyze_sms_list_app, Hrest, Hnil. repeat split.
Qed.

(** C10.  When the interpreted object maps "Amount" to null, [floatify]
    raises [TypeError], which it does not catch; the handler of
    [analyze_sms_list] catches it and the message yields no record.  No
    other field does this: once the amount is computed, the record is
    produced whatever the other fields hold, a missing or null one
    included. *)
Theorem null_amount_drops_record generate calls sms rest body content d :
  sms_get sms "body" = Some body -> body <> EmptyString ->
  analyze_sms (generate calls) body = (content, PDict d) ->
  (dict_get "Amount" d = Some PNone ->
     floatify PNone = Raise TypeError /\
     assemble (generate calls) sms body = Raise TypeError /\
     analyze_sms_list generate calls (sms :: rest)
     = analyze_sms_list generate (S calls) rest) /\
  (forall amount, amount_of (PDict d) = Ok amount ->
     analyze_sms_list generate calls (sms :: rest)
     = analysis_result sms (PStr (json_to_string (PDict d))) amount
         (default (PStr "Unknown") (dict_get "Type" d))
         (default PNone (dict_get "Source" d))
         (default PNone (dict_get "Destination" d))
         (default (PStr "Unknown") (dict_get "Category" d))
       :: analyze_sms_list generate (S calls) rest).
Proof.
  intros Hb Hne Ha.
  destruct (analyze_sms_list_body generate calls sms rest body Hb Hne)
    as [_ ->].
  rewrite (assemble_dict _ sms _ _ _ Ha).
  split.
  - intros Hnull.
    assert (Hamt : amount_of (PDict d) = Raise TypeError).
    { destruct d as [|[k v] d]; [discriminate|].
      rewrite amount_of_dict, Hnull. reflexivity. }
    rewrite Hamt. repeat split; reflexivity.
  - intros amount ->. reflexivity.
Qed.

End Assembly.

Lemma sentinel_reply_is_recorded_witness :
  let sms := Sample.message "AIRTEL" "We are committed to you" in
  In "Not expense" Llama.sentinels /\
  Analyze.sms_get sms "body" = Some "We are committed to you" /\
  "We are committed to you" <> EmptyString /\
  Sample.always "Not expense" 0%nat
    (Llama.prompt_for "We are committed to you") = Ok "Not expense" /\
  @Analyze.analyze_sms_list Sample.platform (Sample.always "Not expense")
    0 [sms]
  = [Analyze.analysis_result sms (PStr "{}") (PInt 0) (PStr "Unknown")
       PNone PNone (PStr "Unknown")].
Proof.
  intros sms.
  assert (H1 : In "Not expense" Llama.sentinels) by (left; reflexivity).
  assert (H2 : Analyze.sms_get sms "body" = Some "We are committed to you")
    by (vm_compute; reflexivity).
  assert (H3 : "We are committed to you" <> EmptyString) by discriminate.
  assert (H4 : Sample.always "Not expense" 0%nat
                 (Llama.prompt_for "We are committed to you")
               = Ok "Not expense") by reflexivity.
  repeat (split; [assumption|]).
  exact (proj2 (@sentinel_reply_is_recorded Sample.platform
                  (Sample.always "Not expense") 0%nat sms []
                  "We are committed to you" "Not expense" H1 H2 H3 H4)).
Defined.

(** The record of a sentinel reply reaches the database. *)
Example sentinel_reply_is_persisted :
  let body := "We are committed to you" in
  @Analyze.main Sample.platform
    (Ok [Sample.attrib "1671408000000" "AIRTEL" body]) None
    (Sample.always "Not expense") []
  = (Analyze.Sinks
       [Analyze.Row (Analyze.SText "1970-01-01 00:00:00")
          (Analyze.SText "AIRTEL") (Analyze.SText "") (Analyze.SText body)
          (Analyze.SText (Analyze.fingerprint body)) (Analyze.SText "{}")
          (Analyze.SInteger 0) (Analyze.SText "Unknown") (Analyze.SText "")
          (Analyze.SText "Unknown")]
       (Some [[PStr "1970-01-01 00:00:00"; PStr "AIRTEL"; PStr ""; PStr body;
               PStr (Analyze.fingerprint body); PStr "{}"; PInt 0;
               PStr "Unknown"; PStr ""; PStr "Unknown"]]),
     Ok tt).
Proof. vm_compute. reflexivity. Qed.

(** A sentinel phrase that comes between double quotes is JSON, a string:
    it has no [get], and the message is skipped. *)
Example quoted_sentinel_is_skipped :
  Llama.interpret Sample.quoted_sentinel = Ok (PStr "Not expense") /\
  @Analyze.analyze_sms_list Sample.platform
    (Sample.always Sample.quoted_sentinel) 0
    [Sample.message "AIRTEL" "We are committed to you"] = [].
Proof. split; vm_compute; reflexivity. Qed.

Lemma unusable_message_is_skipped_witness :
  let generate := Sample.script [Sample.debit_reply; Sample.broken_reply] in
  let first := Sample.message "SBI" "Paid Rs480 to shop" in
  let second := Sample.message "AIRTEL" "We are committed to you" in
  (exists body, Analyze.sms_get second "body" = Some body /\
     body <> EmptyString /\
     snd (Llama.analyze_sms (generate (0 + Analyze.calls_made [first])%nat)
            body) = PNone) /\
  @Analyze.analyze_sms_list Sample.platform generate 0 [first; second]
  = @Analyze.analyze_sms_list Sample.platform generate 0 [first].
Proof.
  intros generate first second.
  assert (Hnone : exists body, Analyze.sms_get second "body" = Some body /\
            body <> EmptyString /\
            snd (Llama.analyze_sms
                   (generate (0 + Analyze.calls_made [first])%nat) body)
            = PNone).
  { exists "We are committed to you".
    split; [vm_compute; reflexivity|]. split; [discriminate|].
    vm_compute. reflexivity. }
  split; [exact Hnone|].
  destruct (@unusable_message_is_skipped Sample.platform generate 0%nat
              [first] second [] [] (or_intror Hnone)) as [Happ _].
  change ([first; second]) with ([first] ++ [second])%list.
  rewrite Happ. apply List.app_nil_r.
Defined.

Lemma null_amount_drops_record_witness :
  let sms := Sample.message "SBI" "Paid Rs480 to shop" in
  let d := [("Amount", PNone); ("Type", PStr "Debit")] in
  Analyze.sms_get sms "body" = Some "Paid Rs480 to shop" /\
  "Paid Rs480 to shop" <> EmptyString /\
  Llama.analyze_sms (Sample.always Sample.null_amount_reply 0%nat)
    "Paid Rs480 to shop" = (Sample.null_amount_reply, PDict d) /\
  dict_get "Amount" d = Some PNone /\
  @Analyze.analyze_sms_list Sample.platform
    (Sample.always Sample.null_amount_reply) 0 [sms] = [].
Proof.
  intros sms d.
  assert (H1 : Analyze.sms_get sms "body" = Some "Paid Rs480 to shop")
    by (vm_compute; reflexivity).
  assert (H2 : "Paid Rs480 to shop" <> EmptyString) by discriminate.
  assert (H3 : Llama.analyze_sms (Sample.always Sample.null_amount_reply 0%nat)
                 "Paid Rs480 to shop" = (Sample.null_amount_reply, PDict d))
    by (vm_compute; reflexivity).
  assert (H4 : dict_get "Amount" d = Some PNone) by reflexivity.
  repeat (split; [assumption|]).
  destruct (proj1 (@null_amount_drops_record Sample.platform
                     (Sample.always Sample.null_amount_reply) 0%nat sms []
                     "Paid Rs480 to shop" Sample.null_amount_reply d
                     H1 H2 H3) H4) as (_ & _ & Hskip).
  exact Hskip.
Defined.

(** The other fields do not abort the assembly: a null type and a list as
    category still give a record. *)
Example malformed_fields_are_kept :
  List.length
    (@Analyze.analyze_sms_list Sample.platform
       (Sample.always Sample.null_type_reply) 0
       [Sample.message "SBI" "Paid Rs480 to shop"]) = 1%nat.
Proof. vm_compute. reflexivity. Qed.

(** ** Defaulting *)

Section Defaulting.
Import Analyze.

(** What [ensure_keys] holds at a key. *)
Lemma lookup_ensure_keys (r : record) (k : string) :
  ensure_keys r !! k =
    match r !! k with
    | Some v => if is_None v then defaults !! k else Some v
    | None => defaults !! k
    end.
Proof.
  unfold ensure_keys. rewrite lookup_union, map_lookup_filter.
  destruct (r !! k) as [v|] eqn:E; simpl.
  - destruct (is_None v) eqn:Ev; case_guard; simpl in *; try congruence;
      destruct (defaults !! k); reflexivity.
  - destruct (defaults !! k); reflexivity.
Qed.

Lemma is_None_false v : is_None v = false <-> v <> PNone.
Proof. destruct v; simpl; split; congruence. Qed.

Lemma defaults_non_null k :
  In k fieldnames -> k <> "date" ->
  exists v, defaults !! k = Some v /\ v <> PNone.
Proof.
  intros Hin Hk. simpl in Hin.
  repeat (destruct Hin as [<- | Hin];
          [ first [ congruence
                  | eexists; split; [vm_compute; reflexivity | discriminate] ]
          | ]).
  destruct Hin.
Qed.

(** C3, as amended.  After [ensure_keys] every field of a record other
    than the date holds a value that is not null: a null or missing value
    is replaced by the default of its field (amount 0.0, type and
    category "Unknown", the empty string for the others), any other value
    is kept.  The date has no such default: it stays null when the record
    has no date. *)
Theorem ensure_keys_non_null (r : record) (k : string) :
  In k fieldnames -> k <> "date" ->
  (exists v, ensure_keys r !! k = Some v /\ v <> PNone /\
     ((r !! k = None \/ r !! k = Some PNone) -> defaults !! k = Some v) /\
     (forall x, r !! k = Some x -> x <> PNone -> v = x)) /\
  ensure_keys r !! "date" = Some (default PNone (r !! "date")).
Proof.
  intros Hin Hk. split.
  - destruct (defaults_non_null k Hin Hk) as (dv & Hd & Hdv).
    rewrite lookup_ensure_keys.
    destruct (r !! k) as [x|] eqn:E.
    + destruct (is_None x) eqn:Ex.
      * exists dv. repeat split; auto.
        intros y [= <-] Hy. apply is_None_false in Hy. congruence.
      * exists x. apply is_None_false in Ex. repeat split; auto.
        -- intros [?|[= ->]]; congruence.
        -- intros y [= <-] _. reflexivity.
    + exists dv. repeat split; auto. intros y [=].
  - rewrite lookup_ensure_keys.
    destruct (r !! "date") as [x|]; [|reflexivity].
    destruct x; reflexivity.
Qed.

End Defaulting.

Lemma ensure_keys_non_null_witness :
  let r := Analyze.analysis_result (Sample.message "SBI" "Paid Rs480 to shop")
             (PStr "{}") (PInt 0) (PStr "Unknown") PNone PNone
             (PStr "Unknown") in
  In "destination" Analyze.fieldnames /\ "destination" <> "date" /\
  r !! "destination" = Some PNone /\
  Analyze.ensure_keys r !! "destination" = Some (PStr "").
Proof.
  intros r.
  assert (H1 : In "destination" Analyze.fieldnames)
    by (right; right; left; reflexivity).
  assert (H2 : "destination" <> "date") by discriminate.
  assert (H3 : r !! "destination" = Some PNone) by (vm_compute; reflexivity).
  repeat (split; [assumption|]).
  destruct (proj1 (ensure_keys_non_null r "destination" H1 H2))
    as (v & Hv & _ & Hdefault & _).
  rewrite Hv. rewrite <- (Hdefault (or_intror H3)).
  vm_compute. reflexivity.
Defined.

(** C3, as the specification words it, fails for the date: the default of
    the date is null, so a record without a date keeps a null date after
    [ensure_keys], and the row bound for it has NULL in its date
    column. *)
Lemma null_date_survives_defaulting :
  let r := Analyze.analysis_result (Sample.message "SBI" "Paid Rs480 to shop")
             (PStr "{}") (PInt 0) (PStr "Unknown") PNone PNone
             (PStr "Unknown") in
  In "date" Analyze.fieldnames /\
  Analyze.ensure_keys r !! "date" = Some PNone /\
  exists row, Analyze.bind_row (Analyze.ensure_keys r) = Ok row /\
    Analyze.r_date row = Analyze.SNull.
Proof.
  intros r. split; [left; reflexivity|].
  split; [vm_compute; reflexivity|].
  eexists. split; [vm_compute; reflexivity|]. reflexivity.
Qed.

(** ** The message normaliser *)

Section Normaliser.
Import Analyze.

Lemma hex_digit_lower n :
  0 <= n < 16 -> Str.is_lower_hex (Md5.hex_digit n) = true.
Proof.
  intros Hn. rewrite <- (Z2Nat.id n) by lia.
  assert (Hk : (Z.to_nat n < 16)%nat) by lia.
  revert Hk. generalize (Z.to_nat n) as k. intros k Hk.
  do 16 (destruct k as [|k]; [reflexivity|]). lia.
Qed.

Lemma hex_byte_shape b rest :
  String.length (Md5.hex_byte b rest) = S (S (String.length rest)) /\
  (Str.forallb Str.is_lower_hex rest = true ->
   Str.forallb Str.is_lower_hex (Md5.hex_byte b rest) = true).
Proof.
  unfold Md5.hex_byte. split; [reflexivity|].
  intros Hr. cbn [Str.forallb].
  rewrite !hex_digit_lower by (apply Z.mod_pos_bound; lia).
  exact Hr.
Qed.

Lemma hex_word_shape w rest :
  String.length (Md5.hex_word w rest) = (8 + String.length rest)%nat /\
  (Str.forallb Str.is_lower_hex rest = true ->
   Str.forallb Str.is_lower_hex (Md5.hex_word w rest) = true).
Proof.
  unfold Md5.hex_word. split.
  - rewrite !(proj1 (hex_byte_shape _ _)). reflexivity.
  - intros Hr. repeat apply hex_byte_shape. exact Hr.
Qed.

(** The digest is always thirty-two lower-case hexadecimal digits. *)
Lemma hexdigest_shape s :
  String.length (Md5.hexdigest s) = 32%nat /\
  Str.forallb Str.is_lower_hex (Md5.hexdigest s) = true.
Proof.
  unfold Md5.hexdigest. destruct (Md5.digest_state s) as [a b c d]. split.
  - rewrite !(proj1 (hex_word_shape _ _)). reflexivity.
  - repeat apply hex_word_shape. reflexivity.
Qed.

Context `{Platform}.

Lemma convert_date_invalid date :
  Builtins.int_of_str date = Raise ValueError -> convert_date date = Ok None.
Proof. intros E. unfold convert_date. rewrite E. reflexivity. Qed.

Lemma convert_date_overflow date timestamp :
  Builtins.int_of_str date = Ok timestamp ->
  float_overflow_bound * 1000 <= Z.abs timestamp ->
  convert_date date = Raise OverflowError.
Proof.
  intros E Hbig. unfold convert_date. rewrite E.
  cbn [mbind result_bind Py.bind]. unfold int_true_div.
  destruct (Z.leb_spec (float_overflow_bound * 1000) (Z.abs timestamp));
    [reflexivity|lia].
Qed.

Lemma normalize_date_raises attrib date e :
  attrib !! "date" = Some date -> convert_date date = Raise e ->
  normalize attrib = Raise e.
Proof. intros Hd He. unfold normalize. rewrite Hd, He. reflexivity. Qed.

(** What the normaliser stores for a message that has a body. *)
Lemma normalize_body attrib b sms :
  attrib !! "body" = Some b -> normalize attrib = Ok sms ->
  sms_get sms "body" = Some (remove_newlines_non_ascii b) /\
  sms_get sms "body_md5" = Some (fingerprint (remove_newlines_non_ascii b)).
Proof.
  intros Hb Hn. unfold normalize in Hn. rewrite Hb in Hn.
  destruct (match attrib !! "date" with Some _ => _ | None => _ end)
    as [d1|e]; [|discriminate].
  cbn [mbind result_bind Py.bind mret result_ret] in Hn.
  injection Hn as <-. unfold sms_get.
  rewrite lookup_insert_eq, lookup_insert_ne by discriminate.
  rewrite lookup_insert_eq. split; reflexivity.
Qed.

(** The handler of the conversion covers [ValueError] and [TypeError]:
    such a failure gives a null date and the message is kept. *)
Lemma convert_date_handled date timestamp seconds e :
  Builtins.int_of_str date = Ok timestamp ->
  int_true_div timestamp 1000 = Ok seconds ->
  local_strftime seconds = Raise e ->
  convert_date date = if caught_by e [ValueError; TypeError] then Ok None
                      else Raise e.
Proof.
  intros Hi Hd Hs. unfold convert_date. rewrite Hi.
  cbn [mbind result_bind Py.bind]. rewrite Hd.
  cbn [mbind result_bind Py.bind]. rewrite Hs. reflexivity.
Qed.

(** Any exception of the conversion outside those two classes aborts the
    parse of the whole document, wherever the message stands. *)
Lemma uncaught_date_error_aborts_parse before attrib after date e :
  Forall (fun a => exists sms, normalize a = Ok sms) before ->
  attrib !! "date" = Some date -> convert_date date = Raise e ->
  parse_sms_xml (Ok (before ++ attrib :: after)%list) = Raise e.
Proof.
  intros Hbefore Hd He. unfold parse_sms_xml.
  cbn [mbind result_bind Py.bind try_except_all].
  assert (Hall : normalize_all (before ++ attrib :: after)%list = Raise e).
  { induction Hbefore as [|a l [sms Ha] _ IH]; cbn [app normalize_all].
    - rewrite (normalize_date_raises _ _ _ Hd He). reflexivity.
    - rewrite Ha. cbn [mbind result_bind Py.bind]. rewrite IH. reflexivity. }
  rewrite Hall. reflexivity.
Qed.

(** C4.  The specification asks that a date that overflows be set to null
    without failing the message.  The code does so for a date that is not
    a number, but it catches [ValueError] and [TypeError] only: for a
    date of 401 digits the division by 1000 raises [OverflowError], which
    leaves the conversion, the loop and [parse_sms_xml], whatever the
    other attributes and the other messages are. *)
Theorem huge_date_aborts_parse address body rest :
  convert_date "not a number" = Ok None /\
  convert_date Sample.huge_date = Raise OverflowError /\
  parse_sms_xml (Ok (Sample.attrib Sample.huge_date address body :: rest))
  = Raise OverflowError.
Proof.
  assert (Hc : convert_date Sample.huge_date = Raise OverflowError).
  { apply (convert_date_overflow _ (10 ^ 400)); [vm_compute; reflexivity|].
    vm_compute. discriminate. }
  split; [reflexivity|]. split; [exact Hc|].
  unfold parse_sms_xml. cbn [mbind result_bind Py.bind normalize_all].
  assert (normalize (Sample.attrib Sample.huge_date address body)
          = Raise OverflowError) as ->.
  { apply (normalize_date_raises _ Sample.huge_date); [|exact Hc].
    unfold Sample.attrib. apply lookup_insert_eq. }
  reflexivity.
Qed.

(** C6.  The fingerprint of a message is the MD5 digest of its cleaned
    body and of nothing else: thirty-two lower-case hexadecimal digits,
    the same for two messages with the same cleaned body whatever their
    sender and timestamp.  Assuming that MD5 does not collide on the two
    cleaned bodies, two messages have the same fingerprint if and only if
    they have the same cleaned body. *)
Theorem fingerprint_of_cleaned_body attrib1 attrib2 b1 b2 sms1 sms2 :
  attrib1 !! "body" = Some b1 -> attrib2 !! "body" = Some b2 ->
  normalize attrib1 = Ok sms1 -> normalize attrib2 = Ok sms2 ->
  (fingerprint (remove_newlines_non_ascii b1)
   = fingerprint (remove_newlines_non_ascii b2) ->
   remove_newlines_non_ascii b1 = remove_newlines_non_ascii b2) ->
  sms_get sms1 "body_md5" = Some (fingerprint (remove_newlines_non_ascii b1)) /\
  sms_get sms2 "body_md5" = Some (fingerprint (remove_newlines_non_ascii b2)) /\
  String.length (fingerprint (remove_newlines_non_ascii b1)) = 32%nat /\
  Str.forallb Str.is_lower_hex (fingerprint (remove_newlines_non_ascii b1))
  = true /\
  (sms_get sms1 "body_md5" = sms_get sms2 "body_md5"
   <-> sms_get sms1 "body" = sms_get sms2 "body").
Proof.
  intros Hb1 Hb2 Hn1 Hn2 Hfree.
  destruct (normalize_body _ _ _ Hb1 Hn1) as [Hbody1 Hmd1].
  destruct (normalize_body _ _ _ Hb2 Hn2) as [Hbody2 Hmd2].
  destruct (hexdigest_shape (remove_newlines_non_ascii b1)) as [Hlen Hhex].
  split; [exact Hmd1|]. split; [exact Hmd2|].
  split; [exact Hlen|]. split; [exact Hhex|].
  rewrite Hmd1, Hmd2, Hbody1, Hbody2.
  remember (remove_newlines_non_ascii b1) as B1 eqn:E1.
  remember (remove_newlines_non_ascii b2) as B2 eqn:E2.
  clear - Hfree. split; intros E.
  - f_equal. apply Hfree. congruence.
  - assert (B1 = B2) as -> by congruence. reflexivity.
Qed.

End Normaliser.

Lemma fingerprint_of_cleaned_body_witness :
  let attrib1 := Sample.attrib "1671408000000" "SBI" "Paid Rs480 to shop" in
  let attrib2 := Sample.attrib "1671494400000" "HDFC" "Paid Rs274 to bazar" in
  let sms1 := match @Analyze.normalize Sample.platform attrib1 with
              | Ok s => s
              | Raise _ => ∅
              end in
  let sms2 := match @Analyze.normalize Sample.platform attrib2 with
              | Ok s => s
              | Raise _ => ∅
              end in
  attrib1 !! "body" = Some "Paid Rs480 to shop" /\
  attrib2 !! "body" = Some "Paid Rs274 to bazar" /\
  @Analyze.normalize Sample.platform attrib1 = Ok sms1 /\
  @Analyze.normalize Sample.platform attrib2 = Ok sms2 /\
  (Analyze.fingerprint (Analyze.remove_newlines_non_ascii "Paid Rs480 to shop")
   = Analyze.fingerprint
       (Analyze.remove_newlines_non_ascii "Paid Rs274 to bazar") ->
   Analyze.remove_newlines_non_ascii "Paid Rs480 to shop"
   = Analyze.remove_newlines_non_ascii "Paid Rs274 to bazar") /\
  (Analyze.sms_get sms1 "body_md5" = Analyze.sms_get sms2 "body_md5"
   <-> Analyze.sms_get sms1 "body" = Analyze.sms_get sms2 "body").
Proof.
  intros attrib1 attrib2 sms1 sms2.
  assert (H1 : attrib1 !! "body" = Some "Paid Rs480 to shop")
    by (vm_compute; reflexivity).
  assert (H2 : attrib2 !! "body" = Some "Paid Rs274 to bazar")
    by (vm_compute; reflexivity).
  assert (H3 : @Analyze.normalize Sample.platform attrib1 = Ok sms1)
    by (vm_compute; reflexivity).
  assert (H4 : @Analyze.normalize Sample.platform attrib2 = Ok sms2)
    by (vm_compute; reflexivity).
  assert (H5 : Analyze.fingerprint
                 (Analyze.remove_newlines_non_ascii "Paid Rs480 to shop")
               = Analyze.fingerprint
                   (Analyze.remove_newlines_non_ascii "Paid Rs274 to bazar") ->
               Analyze.remove_newlines_non_ascii "Paid Rs480 to shop"
               = Analyze.remove_newlines_non_ascii "Paid Rs274 to bazar").
  { intros E. vm_compute in E. discriminate E. }
  repeat (split; [assumption|]).
  destruct (@fingerprint_of_cleaned_body Sample.platform attrib1 attrib2
              _ _ sms1 sms2 H1 H2 H3 H4 H5) as (_ & _ & _ & _ & Hiff).
  exact Hiff.
Defined.

(** Two messages that differ in sender and timestamp only have one
    fingerprint. *)
Example same_body_same_fingerprint :
  let attrib1 := Sample.attrib "1671408000000" "SBI" "Paid Rs480 to shop" in
  let attrib2 := Sample.attrib "1671494400000" "HDFC" "Paid Rs480 to shop" in
  (sms1 ← @Analyze.normalize Sample.platform attrib1;
   mret (Analyze.sms_get sms1 "body_md5"))
  = (sms2 ← @Analyze.normalize Sample.platform attrib2;
     mret (Analyze.sms_get sms2 "body_md5")).
Proof. vm_compute. reflexivity. Qed.

(** The hash is not injective on cleaned bodies: two texts of letters and
    digits, left as they are by the cleaning, with one fingerprint. *)
Lemma fingerprint_collision :
  Analyze.remove_newlines_non_ascii Sample.collide_a = Sample.collide_a /\
  Analyze.remove_newlines_non_ascii Sample.collide_b = Sample.collide_b /\
  Sample.collide_a <> Sample.collide_b /\
  Analyze.fingerprint Sample.collide_a = Analyze.fingerprint Sample.collide_b.
Proof.
  split; [vm_compute; reflexivity|].
  split; [vm_compute; reflexivity|].
  split; [vm_compute; discriminate|].
  vm_compute. reflexivity.
Qed.

(** ** The relational sink *)

Section Sink.
Import Analyze.
Context `{Platform}.

(** The loop binds the rows one after the other into the open
    transaction and stops at the first failure; the committed table is
    not touched. *)
Lemma insert_all_bound_rows conn output :
  insert_all conn output =
    (Connection (committed conn)
       (List.fold_left insert_or_ignore (fst (bound_rows output))
          (working conn)),
     match snd (bound_rows output) with
     | None => Ok tt
     | Some e => Raise e
     end).
Proof.
  revert conn; induction output as [|sms rest IH]; intros conn.
  - destruct conn; reflexivity.
  - cbn [insert_all bound_rows]. unfold execute_insert.
    destruct (bind_row (ensure_keys sms)) as [r|e].
    + rewrite IH. destruct (bound_rows rest) as [rows failure]. reflexivity.
    + destruct conn; reflexivity.
Qed.

Lemma save_to_sqlite_bound_rows db output :
  save_to_sqlite db output =
    match snd (bound_rows output) with
    | None =>
        (List.fold_left insert_or_ignore (fst (bound_rows output)) db, Ok tt)
    | Some e => (db, Raise e)
    end.
Proof.
  unfold save_to_sqlite. rewrite insert_all_bound_rows.
  destruct (snd (bound_rows output)); reflexivity.
Qed.

Lemma bound_rows_all output :
  Forall (fun sms => exists r, bind_row (ensure_keys sms) = Ok r) output ->
  snd (bound_rows output) = None /\
  Forall2 (fun sms r => bind_row (ensure_keys sms) = Ok r) output
    (fst (bound_rows output)).
Proof.
  induction 1 as [|sms rest [r Hr] _ [IH1 IH2]]; [split; constructor|].
  cbn [bound_rows]. rewrite Hr.
  destruct (bound_rows rest) as [rows failure]. simpl in *.
  split; [exact IH1|]. constructor; assumption.
Qed.

Lemma bound_rows_some output :
  Exists (fun sms => exists e, bind_row (ensure_keys sms) = Raise e) output ->
  exists e, snd (bound_rows output) = Some e.
Proof.
  induction 1 as [sms rest [e He] | sms rest _ [e IH]]; cbn [bound_rows].
  - rewrite He. eauto.
  - destruct (bind_row (ensure_keys sms)) as [r|e']; [|simpl; eauto].
    destruct (bound_rows rest) as [rows failure]. simpl in *. eauto.
Qed.

Lemma bound_rows_none output :
  snd (bound_rows output) = None ->
  Forall2 (fun sms r => bind_row (ensure_keys sms) = Ok r) output
    (fst (bound_rows output)).
Proof.
  induction output as [|sms rest IH]; cbn [bound_rows]; [constructor|].
  destruct (bind_row (ensure_keys sms)) as [r|e] eqn:E; [|discriminate].
  destruct (bound_rows rest) as [rows failure]. simpl in *.
  intros ->. constructor; auto.
Qed.

(** ** Keys *)

Lemma key_in_app k t1 t2 :
  key_in k (t1 ++ t2) = key_in k t1 || key_in k t2.
Proof. unfold key_in. apply List.existsb_app. Qed.

Lemma key_in_insert k table r :
  key_in k table = true -> key_in k (insert_or_ignore table r) = true.
Proof.
  intros Hk. unfold insert_or_ignore.
  destruct (conflicts r table); [exact Hk|].
  rewrite key_in_app, Hk. reflexivity.
Qed.

Lemma key_in_inserted k table r :
  unique_key r = Some k -> key_in k (insert_or_ignore table r) = true.
Proof.
  intros Hk. unfold insert_or_ignore, conflicts. rewrite Hk.
  destruct (key_in k table) eqn:E; [exact E|].
  rewrite key_in_app, E. unfold key_in. simpl.
  rewrite Hk, String.eqb_refl. reflexivity.
Qed.

Lemma key_in_fold k rows table :
  key_in k table = true ->
  key_in k (List.fold_left insert_or_ignore rows table) = true.
Proof.
  revert table; induction rows as [|r rows IH]; intros table Hk; [exact Hk|].
  simpl. apply IH, key_in_insert, Hk.
Qed.

Lemma conflicts_after_fold rows table :
  Forall (fun r => exists k, unique_key r = Some k) rows ->
  Forall (fun r => conflicts r (List.fold_left insert_or_ignore rows table)
                   = true) rows.
Proof.
  intros Hkeys. revert table.
  induction Hkeys as [|r rows [k Hk] _ IH]; intros table; constructor.
  - unfold conflicts. rewrite Hk. simpl.
    apply key_in_fold, key_in_inserted, Hk.
  - simpl. apply IH.
Qed.

Lemma fold_insert_noop rows table :
  Forall (fun r => conflicts r table = true) rows ->
  List.fold_left insert_or_ignore rows table = table.
Proof.
  induction 1 as [|r rows Hr _ IH]; [reflexivity|].
  simpl. unfold insert_or_ignore at 2. rewrite Hr. exact IH.
Qed.

(** The fifth column of a bound row comes from the record's
    fingerprint. *)
Lemma bind_row_body_md5 sms r :
  bind_row sms = Ok r ->
  exists v, sms !! "body_md5" = Some v /\ bind_param v = Ok (r_body_md5 r).
Proof.
  unfold bind_row, item. intros Hb.
  repeat match type of Hb with
  | context [sms !! ?k] =>
      destruct (sms !! k) eqn:?;
      cbn [mbind result_bind Py.bind mret result_ret] in Hb; [|discriminate]
  end.
  repeat match type of Hb with
  | context [bind_param ?v] =>
      destruct (bind_param v) eqn:?;
      cbn [mbind result_bind Py.bind mret result_ret] in Hb; [|discriminate]
  end.
  injection Hb as <-. simpl. eauto.
Qed.

Lemma text_fingerprint_key sms r :
  has_text_fingerprint sms -> bind_row (ensure_keys sms) = Ok r ->
  exists k, unique_key r = Some k.
Proof.
  intros Ht Hb.
  destruct (bind_row_body_md5 _ _ Hb) as (v & Hv & Hbind).
  rewrite lookup_ensure_keys in Hv. unfold has_text_fingerprint in Ht.
  assert (Hs : exists s, v = PStr s).
  { destruct (sms !! "body_md5") as [x|].
    - destruct x; try contradiction; simpl in Hv.
      + vm_compute in Hv. injection Hv as <-. eauto.
      + injection Hv as <-. eauto.
    - vm_compute in Hv. injection Hv as <-. eauto. }
  destruct Hs as [s ->]. simpl in Hbind.
  destruct (has_surrogate s); [discriminate|].
  injection Hbind as Hbind. unfold unique_key. rewrite <- Hbind. simpl. eauto.
Qed.

(** The assembler only stores strings or null as fingerprints. *)
Lemma analyze_sms_list_text_fingerprint generate calls sms_list :
  Forall has_text_fingerprint (analyze_sms_list generate calls sms_list).
Proof.
  revert calls; induction sms_list as [|sms rest IH]; intros calls;
    cbn [analyze_sms_list]; [constructor|].
  destruct (sms_get sms "body") as [[|c body]|]; try apply IH.
  destruct (assemble (generate calls) sms (String c body)) as [r|e] eqn:E;
    [|apply IH].
  constructor; [|apply IH].
  unfold assemble in E.
  destruct (Llama.analyze_sms _ _) as [content j].
  destruct (amount_of j); [|discriminate].
  destruct (py_get j "Type" _); [|discriminate].
  destruct (py_get j "Source" _); [|discriminate].
  destruct (py_get j "Destination" _); [|discriminate].
  destruct (py_get j "Category" _); [|discriminate].
  cbn [mbind result_bind Py.bind mret result_ret] in E.
  injection E as <-. unfold has_text_fingerprint, analysis_result.
  rewrite !lookup_insert_ne by discriminate. rewrite lookup_insert_eq.
  destruct (sms_get sms "body_md5"); exact I.
Qed.

(** Inserting a record whose fingerprint is already in the table changes
    nothing and raises nothing. *)
Lemma insert_of_known_fingerprint_ignored conn sms r k :
  bind_row sms = Ok r -> unique_key r = Some k ->
  key_in k (working conn) = true ->
  execute_insert conn sms = (conn, Ok tt).
Proof.
  intros Hr Hk Hin. unfold execute_insert, insert_or_ignore, conflicts.
  rewrite Hr, Hk, Hin. destruct conn; reflexivity.
Qed.

(** C7.  Persistence is idempotent.  For a batch whose fingerprints are
    strings (or missing), as the assembler produces them: once
    [save_to_sqlite] has stored the batch, every record of the batch has
    its fingerprint in the table, its insertion is ignored without
    error, and running [save_to_sqlite] again with the same batch leaves
    the table as it is, adds no row and raises nothing. *)
Theorem save_to_sqlite_idempotent db output db' :
  Forall has_text_fingerprint output ->
  save_to_sqlite db output = (db', Ok tt) ->
  save_to_sqlite db' output = (db', Ok tt) /\
  Forall (fun sms =>
            exists r, bind_row (ensure_keys sms) = Ok r /\
              execute_insert (Connection db' db') (ensure_keys sms)
              = (Connection db' db', Ok tt)) output.
Proof.
  intros Htext Hrun.
  rewrite save_to_sqlite_bound_rows in Hrun.
  destruct (snd (bound_rows output)) eqn:Hfail; [discriminate|].
  injection Hrun as Hdb.
  pose proof (bound_rows_none _ Hfail) as Hbound.
  assert (Hkeys : Forall (fun r => exists k, unique_key r = Some k)
                    (fst (bound_rows output))).
  { clear - Htext Hbound.
    induction Hbound as [|sms r out rows Hr _ IH]; [constructor|].
    inversion Htext as [|? ? Hhead Htail]; subst. constructor; [|auto].
    eapply text_fingerprint_key; eauto. }
  pose proof (conflicts_after_fold _ db Hkeys) as Hconf. rewrite Hdb in Hconf.
  split.
  - rewrite save_to_sqlite_bound_rows, Hfail.
    rewrite (fold_insert_noop _ _ Hconf). reflexivity.
  - clear - Hbound Hconf.
    induction Hbound as [|sms r out rows Hr _ IH]; [constructor|].
    inversion Hconf as [|? ? Hhead Htail]; subst. constructor; [|auto].
    exists r. split; [exact Hr|].
    unfold execute_insert. rewrite Hr. unfold insert_or_ignore. simpl.
    rewrite Hhead. reflexivity.
Qed.

(** C8.  The relational persistence of a batch is all or nothing.  If
    the insertion of some record fails, [save_to_sqlite] raises and the
    database is what it was before the call, the rows inserted before
    the failure included; [main] then stops with that error, writes no
    export and leaves the database unchanged.  If every insertion goes
    through, the whole batch is committed: the database is the old one
    with every row of the batch inserted or ignored in order. *)
Theorem save_to_sqlite_all_or_nothing db output :
  (Exists (fun sms => exists e, bind_row (ensure_keys sms) = Raise e) output ->
   exists e, save_to_sqlite db output = (db, Raise e)) /\
  (Forall (fun sms => exists r, bind_row (ensure_keys sms) = Ok r) output ->
   save_to_sqlite db output
   = (List.fold_left insert_or_ignore (fst (bound_rows output)) db, Ok tt)) /\
  (forall document n generate sms_list e,
     parse_sms_xml document = Ok sms_list ->
     output = analyze_sms_list generate 0
                match n with
                | Some k => slice_to sms_list k
                | None => sms_list
                end ->
     snd (save_to_sqlite db output) = Raise e ->
     main document n generate db = (Sinks db None, Raise e)).
Proof.
  split; [|split].
  - intros Hex. destruct (bound_rows_some _ Hex) as [e He].
    exists e. rewrite save_to_sqlite_bound_rows, He. reflexivity.
  - intros Hall. destruct (bound_rows_all _ Hall) as [Hnone _].
    rewrite save_to_sqlite_bound_rows, Hnone. reflexivity.
  - intros document n generate sms_list e Hparse -> Hfail.
    unfold main. rewrite Hparse.
    rewrite save_to_sqlite_bound_rows in Hfail |- *.
    destruct (snd (bound_rows _)); simpl in Hfail; [|discriminate].
    injection Hfail as ->. reflexivity.
Qed.

End Sink.

Lemma save_to_sqlite_idempotent_witness :
  let output :=
    @Analyze.analyze_sms_list Sample.platform
      (Sample.always Sample.debit_reply) 0
      [Sample.message "SBI" "Paid Rs480 to shop";
       Sample.message "HDFC" "Paid Rs480 to shop"] in
  let db' := fst (@Analyze.save_to_sqlite Sample.platform [] output) in
  Forall Analyze.has_text_fingerprint output /\
  @Analyze.save_to_sqlite Sample.platform [] output = (db', Ok tt) /\
  List.length output = 2%nat /\ List.length db' = 1%nat /\
  @Analyze.save_to_sqlite Sample.platform db' output = (db', Ok tt).
Proof.
  intros output db'.
  assert (H1 : Forall Analyze.has_text_fingerprint output)
    by apply analyze_sms_list_text_fingerprint.
  assert (H2 : @Analyze.save_to_sqlite Sample.platform [] output
               = (db', Ok tt)) by (vm_compute; reflexivity).
  repeat (split; [assumption|]).
  split; [vm_compute; reflexivity|].
  split; [vm_compute; reflexivity|].
  exact (proj1 (@save_to_sqlite_idempotent Sample.platform [] output db'
                  H1 H2)).
Defined.

Lemma save_to_sqlite_all_or_nothing_witness :
  let db :=
    fst (@Analyze.save_to_sqlite Sample.platform []
           (@Analyze.analyze_sms_list Sample.platform
              (Sample.always Sample.debit_reply) 0
              [Sample.message "SBI" "Paid Rs480 to shop"])) in
  let output :=
    @Analyze.analyze_sms_list Sample.platform
      (Sample.script [Sample.debit_reply; Sample.null_type_reply]) 0
      [Sample.message "SBI" "Paid Rs274 to bazar";
       Sample.message "HDFC" "Paid Rs3004 to Airtel"] in
  List.length db = 1%nat /\ List.length output = 2%nat /\
  Exists (fun sms => exists e,
            Analyze.bind_row (Analyze.ensure_keys sms) = Raise e) output /\
  @Analyze.save_to_sqlite Sample.platform db output
  = (db, Raise BindingError).
Proof.
  intros db output.
  assert (Hex : Exists (fun sms => exists e,
                  Analyze.bind_row (Analyze.ensure_keys sms) = Raise e)
                  output).
  { apply List.Exists_exists.
    exists (List.nth 1 output ∅). split.
    - right. left. vm_compute. reflexivity.
    - exists BindingError. vm_compute. reflexivity. }
  split; [vm_compute; reflexivity|].
  split; [vm_compute; reflexivity|].
  split; [exact Hex|].
  destruct (proj1 (@save_to_sqlite_all_or_nothing Sample.platform db output)
              Hex) as [e He].
  rewrite He. f_equal.
  assert (Hs : snd (@Analyze.save_to_sqlite Sample.platform db output)
               = Raise BindingError) by (vm_compute; reflexivity).
  rewrite He in Hs. exact Hs.
Defined.

(** Two messages with one cleaned body and different timestamps give one
    row, the first. *)
Example duplicate_body_single_row :
  let output :=
    @Analyze.analyze_sms_list Sample.platform
      (Sample.always Sample.debit_reply) 0
      [Sample.message "SBI" "Paid Rs480 to shop";
       Sample.message "HDFC" "Paid Rs480 to shop"] in
  List.map Analyze.r_source
    (fst (@Analyze.save_to_sqlite Sample.platform [] output))
  = [Analyze.SText "SBI"].
Proof. vm_compute. reflexivity. Qed.

(* ===================================================================== *)
(** * Further properties of the code *)
(* ===================================================================== *)

(** ** Text cleaning and the float coercion *)

Section Cleaning.
Import Analyze Shape.

(** The cleaning, one character at a time. *)
Lemma remove_newlines_non_ascii_cons c r :
  remove_newlines_non_ascii (String c r) =
    if Ascii.eqb c Str.newline
    then String " " (remove_newlines_non_ascii r)
    else if is_clean_char c
         then String c (remove_newlines_non_ascii r)
         else remove_newlines_non_ascii r.
Proof.
  unfold remove_newlines_non_ascii, is_clean_char. cbn [Str.map Str.filter].
  destruct (Ascii.eqb c Str.newline) eqn:Enl.
  - reflexivity.
  - cbn [negb andb]. rewrite andb_true_r.
    destruct (Str.code c <? 128); cbn [Str.filter andb]; [|reflexivity].
    destruct (Ascii.eqb c Str.quote); cbn [Str.filter negb andb];
      [reflexivity|].
    destruct (Ascii.eqb c Str.apostrophe); reflexivity.
Qed.

Lemma clean_char_not_newline c :
  is_clean_char c = true -> Ascii.eqb c Str.newline = false.
Proof.
  unfold is_clean_char. destruct (Ascii.eqb c Str.newline); [|reflexivity].
  rewrite andb_false_r. discriminate.
Qed.

Lemma remove_newlines_non_ascii_fixed s :
  is_clean s = true -> remove_newlines_non_ascii s = s.
Proof.
  induction s as [|c r IH]; [reflexivity|].
  unfold is_clean. cbn [Str.forallb]. intros Hc.
  apply andb_true_iff in Hc as [Hc Hr].
  rewrite remove_newlines_non_ascii_cons, (clean_char_not_newline c Hc), Hc.
  f_equal. apply IH, Hr.
Qed.

Lemma remove_newlines_non_ascii_is_clean s :
  is_clean (remove_newlines_non_ascii s) = true.
Proof.
  induction s as [|c r IH]; [reflexivity|].
  rewrite remove_newlines_non_ascii_cons.
  destruct (Ascii.eqb c Str.newline); [exact IH|].
  destruct (is_clean_char c) eqn:Hc; [|exact IH].
  unfold is_clean in *. cbn [Str.forallb]. rewrite Hc. exact IH.
Qed.

(** X1.  [remove_newlines_non_ascii] always returns clean text: ASCII
    only, with no newline and no quote character.  Cleaning a cleaned
    text changes nothing, the result is never longer than the input, and
    a text is left as it is exactly when it is already clean. *)
Theorem remove_newlines_non_ascii_clean text :
  is_clean (remove_newlines_non_ascii text) = true /\
  remove_newlines_non_ascii (remove_newlines_non_ascii text)
  = remove_newlines_non_ascii text /\
  (String.length (remove_newlines_non_ascii text) <= String.length text)%nat /\
  (remove_newlines_non_ascii text = text <-> is_clean text = true).
Proof.
  split; [apply remove_newlines_non_ascii_is_clean|].
  split; [apply remove_newlines_non_ascii_fixed,
            remove_newlines_non_ascii_is_clean|].
  split.
  - induction text as [|c r IH]; [reflexivity|].
    rewrite remove_newlines_non_ascii_cons.
    destruct (Ascii.eqb c Str.newline); [simpl; lia|].
    destruct (is_clean_char c); simpl; lia.
  - split; [|apply remove_newlines_non_ascii_fixed].
    intros E. rewrite <- E. apply remove_newlines_non_ascii_is_clean.
Qed.

End Cleaning.

Section Floatify.
Import Analyze.

(** X2.  [floatify] raises in two cases only: [TypeError] exactly when
    the value is [None], a list or a dict, and [OverflowError] exactly
    when it is an [int] of magnitude [2^1024 - 2^970] or more.  For every
    other value, every string included, it returns a float. *)
Theorem floatify_raises_exactly v e :
  floatify v = Raise e <->
    (e = TypeError /\
     (v = PNone \/ (exists l, v = PList l) \/ (exists d, v = PDict d))) \/
    (e = OverflowError /\
     exists z, v = PInt z /\ float_overflow_bound <= Z.abs z).
Proof.
  unfold floatify. split.
  - destruct v as [| b | z | f | s | l | d]; cbn [Builtins.float try_except].
    + intros [= <-]. left. split; auto.
    + discriminate.
    + unfold float_of_int.
      destruct (Z.leb_spec float_overflow_bound (Z.abs z)); [|discriminate].
      cbn. intros [= <-]. right. split; eauto.
    + discriminate.
    + destruct (Builtins.float_of_str s) as [f|e'] eqn:E; [discriminate|].
      apply float_of_str_raises in E as ->. discriminate.
    + intros [= <-]. left. split; eauto.
    + intros [= <-]. left. split; eauto.
  - intros [[-> Hv] | [-> (z & -> & Hz)]].
    + destruct Hv as [-> | [[l ->] | [d ->]]]; reflexivity.
    + cbn [Builtins.float]. unfold float_of_int.
      destruct (Z.leb_spec float_overflow_bound (Z.abs z)); [reflexivity|lia].
Qed.

End Floatify.

(** ** The parser *)

Section Parsing.
Import Analyze Shape.
Context `{Platform}.

Lemma normalize_all_Forall2 elements sms_list :
  normalize_all elements = Ok sms_list ->
  Forall2 (fun attrib sms => normalize attrib = Ok sms) elements sms_list.
Proof.
  revert sms_list; induction elements as [|a rest IH]; intros sms_list.
  - intros [= <-]. constructor.
  - cbn [normalize_all].
    destruct (normalize a) as [sms|e] eqn:Ea; [|discriminate].
    cbn [mbind result_bind Py.bind].
    destruct (normalize_all rest) as [tail|e]; [|discriminate].
    intros [= <-]. constructor; auto.
Qed.

(** What a normalised message holds, field by field. *)
Lemma normalize_fields attrib sms :
  normalize attrib = Ok sms ->
  (forall k, k <> "date" -> k <> "address" -> k <> "body" ->
     k <> "body_md5" -> sms !! k = Some <$> attrib !! k) /\
  sms_get sms "address" = Str.strip <$> attrib !! "address" /\
  sms_get sms "body" = remove_newlines_non_ascii <$> attrib !! "body" /\
  (forall body, sms_get sms "body" = Some body ->
     is_clean body = true /\
     sms_get sms "body_md5" = Some (fingerprint body)).
Proof.
  unfold normalize. intros Hn.
  destruct (match attrib !! "date" with Some _ => _ | None => _ end)
    as [d1|e] eqn:Hd1; [|discriminate].
  cbn [mbind result_bind Py.bind mret result_ret] in Hn.
  injection Hn as <-.
  assert (Hother : forall k, k <> "date" -> d1 !! k = Some <$> attrib !! k).
  { intros k Hk. destruct (attrib !! "date") as [date|].
    - destruct (convert_date date) as [v|e]; [|discriminate].
      cbn [mbind result_bind Py.bind mret result_ret] in Hd1.
      injection Hd1 as <-. rewrite lookup_insert_ne by congruence.
      apply lookup_fmap.
    - injection Hd1 as <-. apply lookup_fmap. }
  assert (Haddr : (match attrib !! "address" with
                   | Some a => <["address" := Some (Str.strip a)]> d1
                   | None => d1
                   end : sms_dict) !! "address"
                  = (fun a => Some (Str.strip a)) <$> attrib !! "address").
  { destruct (attrib !! "address") as [a|] eqn:Ha.
    - apply lookup_insert_eq.
    - rewrite Hother, Ha by discriminate. reflexivity. }
  split; [|split; [|split]].
  - intros k K1 K2 K3 K4.
    destruct (attrib !! "body"), (attrib !! "address");
      rewrite ?lookup_insert_ne by congruence; apply Hother, K1.
  - unfold sms_get.
    destruct (attrib !! "body");
      rewrite ?lookup_insert_ne by discriminate; rewrite Haddr;
      destruct (attrib !! "address"); reflexivity.
  - unfold sms_get. destruct (attrib !! "body") as [b|] eqn:Hb.
    + rewrite lookup_insert_ne, lookup_insert_eq by discriminate. reflexivity.
    + destruct (attrib !! "address");
        rewrite ?lookup_insert_ne by discriminate;
        rewrite Hother, Hb by discriminate; reflexivity.
  - unfold sms_get. intros body. destruct (attrib !! "body") as [b|] eqn:Hb.
    + rewrite lookup_insert_ne, !lookup_insert_eq by discriminate.
      intros [= <-]. split; [apply remove_newlines_non_ascii_is_clean|].
      reflexivity.
    + destruct (attrib !! "address");
        rewrite ?lookup_insert_ne by discriminate;
        rewrite Hother, Hb by discriminate; discriminate.
Qed.

(** X3.  When [parse_sms_xml] returns, it returns one message per
    element, in order.  Each message keeps every attribute other than
    date, address, body and body_md5 as it was, has its address
    stripped, its body cleaned, and, whenever it has a body, a body that
    is clean text together with the fingerprint of that very body. *)
Theorem parse_sms_xml_messages elements sms_list :
  parse_sms_xml (Ok elements) = Ok sms_list ->
  Forall2
    (fun attrib sms =>
       (forall k, k <> "date" -> k <> "address" -> k <> "body" ->
          k <> "body_md5" -> sms !! k = Some <$> attrib !! k) /\
       sms_get sms "address" = Str.strip <$> attrib !! "address" /\
       sms_get sms "body" = remove_newlines_non_ascii <$> attrib !! "body" /\
       (forall body, sms_get sms "body" = Some body ->
          is_clean body = true /\
          sms_get sms "body_md5" = Some (fingerprint body)))
    elements sms_list.
Proof.
  unfold parse_sms_xml. cbn [mbind result_bind Py.bind try_except_all].
  destruct (normalize_all elements) as [l|e] eqn:Hall; [|discriminate].
  intros [= <-]. apply normalize_all_Forall2 in Hall.
  induction Hall as [|a sms rest tail Ha _ IH]; constructor; auto.
  apply normalize_fields, Ha.
Qed.

Lemma normalize_succeeds_iff attrib :
  (exists sms, normalize attrib = Ok sms) <->
  (forall date, attrib !! "date" = Some date ->
     exists v, convert_date date = Ok v).
Proof.
  unfold normalize. destruct (attrib !! "date") as [d|].
  - destruct (convert_date d) as [v|e] eqn:E; cbn [mbind result_bind Py.bind].
    + split; [intros _ date [= <-]; eauto | intros _; eexists; reflexivity].
    + split; [intros [sms Hs]; discriminate|].
      intros Hd. destruct (Hd d eq_refl) as [v Hv]. congruence.
  - split; [intros _ date; discriminate | intros _; eexists; reflexivity].
Qed.

(** X4.  [parse_sms_xml] returns a list of messages exactly when the
    conversion of every date attribute returns, with a text or with
    null; an element without a date never fails.  An error of the
    document itself is raised again as it is. *)
Theorem parse_sms_xml_succeeds_iff elements :
  ((exists sms_list, parse_sms_xml (Ok elements) = Ok sms_list) <->
   Forall (fun attrib => forall date, attrib !! "date" = Some date ->
             exists v, convert_date date = Ok v) elements) /\
  (forall e, parse_sms_xml (Raise e) = Raise e).
Proof.
  split; [|reflexivity].
  unfold parse_sms_xml. cbn [mbind result_bind Py.bind].
  induction elements as [|a rest IH]; cbn [normalize_all].
  - split; [constructor | intros _; eexists; reflexivity].
  - rewrite List.Forall_cons_iff, <- IH, <- normalize_succeeds_iff.
    destruct (normalize a) as [sms|e]; cbn [mbind result_bind Py.bind].
    + destruct (normalize_all rest) as [tail|e];
        cbn [mbind result_bind Py.bind mret result_ret try_except_all].
      * split; [intros _; split; eexists; reflexivity
               | intros _; eexists; reflexivity].
      * split; [intros [l Hl]; discriminate|].
        intros [_ [l Hl]]. discriminate.
    + cbn [try_except_all]. split; [intros [l Hl]; discriminate|].
      intros [[s Hs] _]. discriminate.
Qed.

End Parsing.

(** ** The records of a batch *)

Section Records.
Import Llama Analyze Shape.
Context `{Platform}.

Lemma dom_analysis_result sms o a t ts d c :
  dom (analysis_result sms o a t ts d c) = list_to_set fieldnames.
Proof.
  unfold analysis_result, fieldnames.
  rewrite !dom_insert_L, dom_empty_L. cbn [list_to_set foldr].
  set_solver.
Qed.

Lemma amount_of_is_amount j a : amount_of j = Ok a -> is_amount a.
Proof.
  unfold amount_of, is_amount. destruct (truthy j).
  - destruct (py_get j "Amount" (PInt 0)) as [x|]; [|discriminate].
    cbn [mbind result_bind Py.bind].
    destruct (floatify x) as [f|]; [|discriminate].
    intros [= <-]. eauto.
  - intros [= <-]. auto.
Qed.

(** What a record that [assemble] returns looks like. *)
Lemma assemble_record generate sms body r :
  sms_get sms "body" = Some body ->
  assemble generate sms body = Ok r ->
  dom r = list_to_set fieldnames /\
  r !! "body" = Some (PStr body) /\
  r !! "body_md5" = Some (of_opt (sms_get sms "body_md5")) /\
  r !! "source" = Some (of_opt (sms_get sms "address")) /\
  r !! "date" = Some (of_opt (sms_get sms "date")) /\
  r !! "llm_output"
  = Some (PStr (json_to_string (snd (analyze_sms generate body)))) /\
  (exists a, r !! "amount" = Some a /\ is_amount a).
Proof.
  intros Hb. unfold assemble.
  destruct (analyze_sms generate body) as [content j].
  destruct (amount_of j) as [a|] eqn:Ha; [|discriminate].
  destruct (py_get j "Type" _); [|discriminate].
  destruct (py_get j "Source" _); [|discriminate].
  destruct (py_get j "Destination" _); [|discriminate].
  destruct (py_get j "Category" _); [|discriminate].
  cbn [mbind result_bind Py.bind mret result_ret].
  intros [= <-]. split; [apply dom_analysis_result|].
  unfold analysis_result.
  repeat (split; [ repeat (rewrite lookup_insert_ne by discriminate);
                   rewrite lookup_insert_eq, ?Hb; reflexivity |]).
  exists a. split; [|eapply amount_of_is_amount; eauto].
  repeat (rewrite lookup_insert_ne by discriminate).
  apply lookup_insert_eq.
Qed.

Lemma calls_made_cons sms rest :
  calls_made (sms :: rest)
  = ((if has_body sms then 1 else 0) + calls_made rest)%nat.
Proof. unfold calls_made. simpl. destruct (has_body sms); reflexivity. Qed.

Lemma calls_made_le sms_list :
  (calls_made sms_list <= List.length sms_list)%nat.
Proof.
  induction sms_list as [|sms rest IH]; [reflexivity|].
  rewrite calls_made_cons. destruct (has_body sms); simpl; lia.
Qed.

(** X5.  [analyze_sms_list] returns at most one record per message with
    a body, in the order of the messages.  Every record has exactly the
    ten fields, the non-empty body of its message, the fingerprint,
    sender and date of that message, a string as [llm_output] and an
    amount that is the integer 0 or a float. *)
Theorem analyze_sms_list_records generate calls sms_list :
  let output := analyze_sms_list generate calls sms_list in
  (List.length output <= calls_made sms_list)%nat /\
  (calls_made sms_list <= List.length sms_list)%nat /\
  exists kept,
    sublist kept sms_list /\
    Forall2
      (fun sms r =>
         dom r = list_to_set fieldnames /\
         (exists body, sms_get sms "body" = Some body /\ body <> EmptyString /\
            r !! "body" = Some (PStr body)) /\
         r !! "body_md5" = Some (of_opt (sms_get sms "body_md5")) /\
         r !! "source" = Some (of_opt (sms_get sms "address")) /\
         r !! "date" = Some (of_opt (sms_get sms "date")) /\
         (exists text, r !! "llm_output" = Some (PStr text)) /\
         (exists a, r !! "amount" = Some a /\ is_amount a))
      kept output.
Proof.
  intros output. subst output.
  split; [|split; [apply calls_made_le|]].
  - revert calls; induction sms_list as [|sms rest IH]; intros calls;
      [reflexivity|].
    rewrite calls_made_cons. cbn [analyze_sms_list]. unfold has_body.
    destruct (sms_get sms "body") as [[|c b]|];
      try (specialize (IH calls); lia).
    destruct (assemble _ _ _); specialize (IH (S calls)); simpl; lia.
  - revert calls; induction sms_list as [|sms rest IH]; intros calls.
    { exists []. split; constructor. }
    cbn [analyze_sms_list].
    destruct (sms_get sms "body") as [[|c b]|] eqn:Hb;
      try (destruct (IH calls) as (kept & Hsub & Hall);
           exists kept; split; [apply sublist_cons, Hsub | exact Hall]).
    destruct (assemble (generate calls) sms (String c b)) as [r|e] eqn:Ha;
      destruct (IH (S calls)) as (kept & Hsub & Hall).
    + exists (sms :: kept). split; [apply sublist_skip, Hsub|].
      constructor; [|exact Hall].
      destruct (assemble_record _ _ _ _ Hb Ha)
        as (Hdom & Hbody & Hmd5 & Hsrc & Hdate & Hout & Hamt).
      split; [exact Hdom|]. split.
      { exists (String c b). split; [exact Hb|].
        split; [discriminate | exact Hbody]. }
      split; [exact Hmd5|]. split; [exact Hsrc|]. split; [exact Hdate|].
      split; [eauto | exact Hamt].
    + exists kept. split; [apply sublist_cons, Hsub | exact Hall].
Qed.

(** A service that fails on every call. *)
Lemma analyze_sms_list_outage generate calls sms_list :
  (forall call prompt, exists e, generate call prompt = Raise e) ->
  analyze_sms_list generate calls sms_list = [].
Proof.
  intros Hdown. revert calls.
  induction sms_list as [|sms rest IH]; intros calls; [reflexivity|].
  cbn [analyze_sms_list].
  destruct (sms_get sms "body") as [[|c b]|]; try apply IH.
  destruct (Hdown calls (prompt_for (String c b))) as [e He].
  rewrite (assemble_not_dict _ sms _ _ _ (analyze_sms_failure _ _ _ He))
    by discriminate.
  apply IH.
Qed.

(** X6.  A service that fails on every call does not fail the run:
    [analyze_sms_list] returns an empty output, and [main] ends without
    error, leaves the database as it was and writes an export with no
    row. *)
Theorem service_outage_is_not_an_error document n generate db sms_list :
  parse_sms_xml document = Ok sms_list ->
  (forall call prompt, exists e, generate call prompt = Raise e) ->
  analyze_sms_list generate 0 sms_list = [] /\
  main document n generate db = (Sinks db (Some []), Ok tt).
Proof.
  intros Hparse Hdown.
  split; [apply analyze_sms_list_outage, Hdown|].
  unfold main. rewrite Hparse.
  rewrite (analyze_sms_list_outage generate 0 _ Hdown). reflexivity.
Qed.

End Records.

(** ** Defaulting and the flat export *)

Section DefaultingShape.
Import Analyze Shape.

Lemma dom_defaults : dom defaults = list_to_set fieldnames.
Proof.
  unfold defaults, fieldnames.
  rewrite !dom_insert_L, dom_empty_L. cbn [list_to_set foldr].
  set_solver.
Qed.

Lemma defaults_is_Some k : is_Some (defaults !! k) <-> In k fieldnames.
Proof.
  rewrite <- elem_of_dom, dom_defaults, elem_of_list_to_set.
  apply list_elem_of_In.
Qed.

Lemma defaults_None k : ~ In k fieldnames -> defaults !! k = None.
Proof.
  intros Hk. apply eq_None_not_Some. rewrite defaults_is_Some. exact Hk.
Qed.

Lemma dom_ensure_keys (r : record) k :
  k ∈ dom (ensure_keys r) <->
    In k fieldnames \/ exists v, r !! k = Some v /\ v <> PNone.
Proof.
  rewrite elem_of_dom, lookup_ensure_keys, <- defaults_is_Some.
  destruct (r !! k) as [v|] eqn:E.
  - destruct (is_None v) eqn:Ev.
    + split; [auto|]. intros [Hd | (x & [= <-] & Hx)]; [exact Hd|].
      apply is_None_false in Hx. congruence.
    + split; [|eauto]. intros _. right. exists v.
      split; [reflexivity|]. apply is_None_false, Ev.
  - split; [auto|]. intros [Hd | (x & Hx & _)]; [exact Hd|discriminate].
Qed.

(** X7.  [ensure_keys] is idempotent.  Its result has the ten columns
    and, besides them, exactly the fields of the record whose value is
    not null; it never changes a value that is not null, and it drops a
    null field that is not a column. *)
Theorem ensure_keys_shape (r : record) :
  ensure_keys (ensure_keys r) = ensure_keys r /\
  (forall k, k ∈ dom (ensure_keys r) <->
     In k fieldnames \/ exists v, r !! k = Some v /\ v <> PNone) /\
  (forall k v, r !! k = Some v -> v <> PNone -> ensure_keys r !! k = Some v) /\
  (forall k, ~ In k fieldnames -> r !! k = Some PNone ->
     ensure_keys r !! k = None).
Proof.
  split; [|split; [|split]].
  - apply map_eq. intros k. rewrite !lookup_ensure_keys.
    destruct (r !! k) as [v|] eqn:E.
    + destruct (is_None v) eqn:Ev; [|rewrite Ev; reflexivity].
      destruct (defaults !! k) as [dv|]; [|reflexivity].
      destruct (is_None dv); reflexivity.
    + destruct (defaults !! k) as [dv|]; [|reflexivity].
      destruct (is_None dv); reflexivity.
  - apply dom_ensure_keys.
  - intros k v Hv Hnn. rewrite lookup_ensure_keys, Hv.
    apply is_None_false in Hnn. rewrite Hnn. reflexivity.
  - intros k Hk Hv. rewrite lookup_ensure_keys, Hv. simpl.
    apply defaults_None, Hk.
Qed.

End DefaultingShape.

Section CsvFile.
Import Analyze Shape.

Lemma csv_row_clean sms :
  ~ stray_field sms -> csv_row (ensure_keys sms) = Ok (cells sms).
Proof.
  intros Hns. unfold csv_row, cells.
  rewrite bool_decide_eq_true_2; [reflexivity|].
  intros k Hk. apply elem_of_list_to_set, list_elem_of_In.
  apply dom_ensure_keys in Hk as [Hk | (v & Hv & Hnn)]; [exact Hk|].
  destruct (In_dec string_dec k fieldnames) as [Hin|Hout]; [exact Hin|].
  exfalso. apply Hns. exists k, v. auto.
Qed.


Lemma write_rows_clean written output :
  Forall (fun sms => ~ stray_field sms) output ->
  write_rows written output = ((written ++ List.map cells output)%list, Ok tt).
Proof.
  intros Hall. revert written.
  induction Hall as [|sms rest Hs _ IH]; intros written; cbn [write_rows].
  - rewrite List.app_nil_r. reflexivity.
  - rewrite (csv_row_clean sms Hs), IH. cbn [List.map].
    rewrite <- List.app_assoc. reflexivity.
Qed.


End CsvFile.

(** ** The table *)

Section Table.
Import Analyze Shape.
Context `{Platform}.

Lemma keys_app t1 t2 : keys (t1 ++ t2) = (keys t1 ++ keys t2)%list.
Proof. unfold keys. apply omap_app. Qed.

Lemma key_in_keys k table : key_in k table = true <-> In k (keys table).
Proof.
  unfold key_in, keys. induction table as [|r rest IH]; simpl.
  - split; [discriminate|tauto].
  - destruct (unique_key r) as [k'|]; simpl.
    + rewrite orb_true_iff, IH, String.eqb_eq. split; intros [E|E]; auto.
    + exact IH.
Qed.

(** Inserting or ignoring a row keeps the rows that are there and adds at
    most the new one, at the end. *)
Lemma insert_or_ignore_app table r :
  insert_or_ignore table r
  = (table ++ if conflicts r table then [] else [r])%list.
Proof.
  unfold insert_or_ignore. destruct (conflicts r table);
    [rewrite List.app_nil_r|]; reflexivity.
Qed.

Lemma fold_insert_app rows table :
  exists added,
    List.fold_left insert_or_ignore rows table = (table ++ added)%list /\
    sublist added rows.
Proof.
  revert table; induction rows as [|r rows IH]; intros table.
  - exists []. simpl. rewrite List.app_nil_r. split; constructor.
  - simpl. destruct (IH (insert_or_ignore table r)) as (added & -> & Hsub).
    rewrite insert_or_ignore_app. destruct (conflicts r table).
    + exists added. rewrite List.app_nil_r.
      split; [reflexivity | apply sublist_cons, Hsub].
    + exists (r :: added). rewrite <- List.app_assoc.
      split; [reflexivity | apply sublist_skip, Hsub].
Qed.

Lemma bound_rows_length output :
  (List.length (fst (bound_rows output)) <= List.length output)%nat.
Proof.
  induction output as [|sms rest IH]; [reflexivity|].
  cbn [bound_rows]. destruct (bind_row _); [|simpl; lia].
  destruct (bound_rows rest). simpl in *. lia.
Qed.

(** X9.  [save_to_sqlite] never removes or changes a row: the table
    afterwards is the table before followed by added rows, which are
    some of the rows bound for the batch, in order and at most one per
    record; when it raises, nothing is added. *)
Theorem save_to_sqlite_append_only db output :
  exists added,
    fst (save_to_sqlite db output) = (db ++ added)%list /\
    sublist added (fst (bound_rows output)) /\
    (List.length added <= List.length output)%nat /\
    (forall e, snd (save_to_sqlite db output) = Raise e -> added = []).
Proof.
  rewrite save_to_sqlite_bound_rows.
  destruct (snd (bound_rows output)) as [e|] eqn:Hf.
  - exists []. simpl. rewrite List.app_nil_r.
    repeat split; [apply sublist_nil_l | lia].
  - destruct (fold_insert_app (fst (bound_rows output)) db)
      as (added & Hfold & Hsub).
    exists added. simpl. split; [exact Hfold|]. split; [exact Hsub|].
    split; [|discriminate].
    apply sublist_length in Hsub. pose proof (bound_rows_length output). lia.
Qed.

Lemma unique_keys_insert table r :
  unique_keys table -> unique_keys (insert_or_ignore table r).
Proof.
  unfold unique_keys, insert_or_ignore, conflicts. intros Hu.
  destruct (unique_key r) as [k|] eqn:Hk.
  - destruct (key_in k table) eqn:Hin; [exact Hu|].
    rewrite keys_app. unfold keys at 2. simpl. rewrite Hk. simpl.
    apply NoDup_app. split; [exact Hu|]. split; [|apply NoDup_singleton].
    intros x Hx [= ->]%list_elem_of_singleton.
    apply list_elem_of_In, key_in_keys in Hx. congruence.
  - rewrite keys_app. unfold keys at 2. simpl. rewrite Hk. simpl.
    rewrite List.app_nil_r. exact Hu.
Qed.

Lemma unique_keys_fold rows table :
  unique_keys table ->
  unique_keys (List.fold_left insert_or_ignore rows table).
Proof.
  revert table; induction rows as [|r rows IH]; intros table Hu; [exact Hu|].
  simpl. apply IH, unique_keys_insert, Hu.
Qed.

(** X10.  [save_to_sqlite] keeps the UNIQUE constraint: if no two rows
    of the table share a fingerprint before the call, none do after it,
    whatever the batch and whether or not the call raises. *)
Theorem save_to_sqlite_keeps_fingerprints_unique db output :
  unique_keys db -> unique_keys (fst (save_to_sqlite db output)).
Proof.
  intros Hu. rewrite save_to_sqlite_bound_rows.
  destruct (snd (bound_rows output)); simpl; [exact Hu|].
  apply unique_keys_fold, Hu.
Qed.

Lemma bound_rows_app l1 l2 :
  bound_rows (l1 ++ l2) =
    match snd (bound_rows l1) with
    | Some e => bound_rows l1
    | None =>
        ((fst (bound_rows l1) ++ fst (bound_rows l2))%list,
         snd (bound_rows l2))
    end.
Proof.
  induction l1 as [|sms rest IH]; cbn [app bound_rows].
  - simpl. destruct (bound_rows l2); reflexivity.
  - destruct (bind_row (ensure_keys sms)) as [r|e]; [|reflexivity].
    rewrite IH. destruct (bound_rows rest) as [rows [e|]]; simpl; reflexivity.
Qed.

Lemma bound_rows_In sms output r :
  In sms output -> snd (bound_rows output) = None ->
  bind_row (ensure_keys sms) = Ok r -> In r (fst (bound_rows output)).
Proof.
  induction output as [|x rest IH]; [intros []|].
  cbn [bound_rows]. intros Hin.
  destruct (bind_row (ensure_keys x)) as [rx|e] eqn:Ex; [|discriminate].
  destruct (bound_rows rest) as [rows failure]. simpl in *.
  intros -> Hr. destruct Hin as [-> | Hin].
  - left. congruence.
  - right. apply IH; auto.
Qed.

Lemma key_in_fold_row k r rows table :
  In r rows -> unique_key r = Some k ->
  key_in k (List.fold_left insert_or_ignore rows table) = true.
Proof.
  revert table; induction rows as [|x rows IH]; intros table; [intros []|].
  intros [-> | Hin] Hk; simpl.
  - apply key_in_fold, key_in_inserted, Hk.
  - apply IH; auto.
Qed.

(** X11.  A record whose fingerprint is already in the table, or is the
    fingerprint of an earlier record of the batch, adds nothing: the
    result of [save_to_sqlite], table and outcome, is the same as for the
    batch without that record.  The first record with a fingerprint
    wins. *)
Theorem repeated_fingerprint_adds_no_row db pre sms post r k :
  bind_row (ensure_keys sms) = Ok r -> unique_key r = Some k ->
  (In k (keys db) \/
   exists earlier r', In earlier pre /\
     bind_row (ensure_keys earlier) = Ok r' /\ unique_key r' = Some k) ->
  save_to_sqlite db (pre ++ sms :: post) = save_to_sqlite db (pre ++ post).
Proof.
  intros Hr Hk Hseen. rewrite !save_to_sqlite_bound_rows, !bound_rows_app.
  destruct (snd (bound_rows pre)) as [e|] eqn:Hpre; [reflexivity|].
  cbn [bound_rows]. rewrite Hr.
  destruct (bound_rows post) as [rows failure]. simpl.
  destruct failure as [e|]; [reflexivity|].
  rewrite !List.fold_left_app. cbn [List.fold_left].
  assert (Hin : key_in k (List.fold_left insert_or_ignore
                            (fst (bound_rows pre)) db) = true).
  { destruct Hseen as [Hdb | (earlier & r' & Hin & Hr' & Hk')].
    - apply key_in_fold, key_in_keys, Hdb.
    - eapply key_in_fold_row; [|exact Hk'].
      eapply bound_rows_In; eauto. }
  assert (Hsame : insert_or_ignore
                    (List.fold_left insert_or_ignore (fst (bound_rows pre)) db)
                    r
                  = List.fold_left insert_or_ignore (fst (bound_rows pre)) db).
  { rewrite insert_or_ignore_app. unfold conflicts. rewrite Hk, Hin.
    apply List.app_nil_r. }
  rewrite Hsame. reflexivity.
Qed.

End Table.

(** ** The run *)

Section Run.
Import Llama Analyze Shape.
Context `{Platform}.

Lemma analyze_sms_list_length generate calls sms_list :
  (List.length (analyze_sms_list generate calls sms_list)
   <= List.length sms_list)%nat.
Proof.
  revert calls; induction sms_list as [|sms rest IH]; intros calls;
    [reflexivity|].
  cbn [analyze_sms_list].
  destruct (sms_get sms "body") as [[|c b]|];
    try (specialize (IH calls); simpl; lia).
  destruct (assemble _ _ _); specialize (IH (S calls)); simpl; lia.
Qed.

Lemma analyze_sms_list_no_stray generate calls sms_list :
  Forall (fun r => ~ stray_field r) (analyze_sms_list generate calls sms_list).
Proof.
  revert calls; induction sms_list as [|sms rest IH]; intros calls;
    cbn [analyze_sms_list]; [constructor|].
  destruct (sms_get sms "body") as [[|c b]|] eqn:Hb; try apply IH.
  destruct (assemble (generate calls) sms (String c b)) as [r|e] eqn:Ha;
    [|apply IH].
  constructor; [|apply IH].
  destruct (assemble_record _ _ _ _ Hb Ha) as (Hdom & _).
  intros (k & v & Hk & Hv & _). apply Hk.
  assert (Hin : k ∈ dom r) by (apply elem_of_dom; eauto).
  rewrite Hdom, elem_of_list_to_set in Hin.
  apply list_elem_of_In, Hin.
Qed.

(** X13.  What [main] does, in full.  If the document cannot be parsed
    it raises that error; if some record of the output cannot be bound
    it raises that error; in both cases the database is unchanged and no
    export is written.  Otherwise it ends without error, the database
    holds the old rows with the rows of the output inserted or ignored in
    order, and the export holds one row per record of the output: the
    export step never fails on an output of [analyze_sms_list]. *)
Theorem main_outcome document n generate db :
  main document n generate db =
    match parse_sms_xml document with
    | Raise e => (Sinks db None, Raise e)
    | Ok sms_list =>
        let output :=
          analyze_sms_list generate 0
            match n with
            | Some k => slice_to sms_list k
            | None => sms_list
            end in
        match snd (bound_rows output) with
        | Some e => (Sinks db None, Raise e)
        | None =>
            (Sinks
               (List.fold_left insert_or_ignore (fst (bound_rows output)) db)
               (Some (List.map cells output)),
             Ok tt)
        end
    end.
Proof.
  unfold main. destruct (parse_sms_xml document) as [sms_list|e];
    [|reflexivity].
  cbv zeta. rewrite save_to_sqlite_bound_rows.
  destruct (snd (bound_rows _)) as [e|]; [reflexivity|].
  unfold save_to_csv.
  rewrite (write_rows_clean [] _ (analyze_sms_list_no_stray _ _ _)).
  reflexivity.
Qed.

Lemma slice_to_length {A} (l : list A) n :
  0 <= n -> Z.of_nat (List.length (slice_to l n)) <= n.
Proof.
  intros Hn. unfold slice_to.
  destruct (Z.leb_spec 0 n); [|lia].
  rewrite List.length_firstn. lia.
Qed.

(** X12.  With a limit [n] that is not negative, [main] adds at most
    [n] rows to the database, after the rows it had, and an export it
    writes has at most [n] rows. *)
Theorem main_batch_limit document n generate db :
  0 <= n ->
  exists added,
    database (fst (main document (Some n) generate db)) = (db ++ added)%list /\
    Z.of_nat (List.length added) <= n /\
    forall file,
      export (fst (main document (Some n) generate db)) = Some file ->
      Z.of_nat (List.length file) <= n.
Proof.
  intros Hn. unfold main.
  destruct (parse_sms_xml document) as [sms_list|e].
  2:{ exists []. simpl. rewrite List.app_nil_r.
      repeat split; [lia | discriminate]. }
  set (output := analyze_sms_list generate 0 (slice_to sms_list n)).
  assert (Hout : Z.of_nat (List.length output) <= n).
  { subst output.
    pose proof (analyze_sms_list_length generate 0 (slice_to sms_list n)).
    pose proof (slice_to_length sms_list n Hn). lia. }
  rewrite save_to_sqlite_bound_rows.
  destruct (snd (bound_rows output)) as [e|].
  { exists []. simpl. rewrite List.app_nil_r.
    repeat split; [lia | discriminate]. }
  destruct (fold_insert_app (fst (bound_rows output)) db)
    as (added & Hfold & Hsub).
  unfold save_to_csv.
  rewrite (write_rows_clean [] output (analyze_sms_list_no_stray _ _ _)).
  exists added. cbn [fst database export]. split; [exact Hfold|]. split.
  - apply sublist_length in Hsub. pose proof (bound_rows_length output). lia.
  - intros file [= <-]. simpl. rewrite List.length_map. exact Hout.
Qed.

End Run.

(** ** The object behind a reply *)

Section Objects.
Import Json Llama.

Lemma object_members_dict fuel acc s v t :
  object_members fuel acc s = Scanned v t -> exists d, v = PDict d.
Proof.
  revert acc s; induction fuel as [|n IH]; intros acc s; [discriminate|].
  cbn [object_members].
  destruct (scanstring s) as [[key t0]|]; [|discriminate].
  destruct (skip_ws t0) as [|c r]; [discriminate|].
  destruct (Ascii.eqb c ":"); [|discriminate].
  destruct (scan_once n (skip_ws r)) as [x t1| |]; try discriminate.
  destruct (skip_ws t1) as [|c2 r2]; [discriminate|].
  destruct (Ascii.eqb c2 "}"); [intros [= <- _]; eauto|].
  destruct (Ascii.eqb c2 ","); [|discriminate].
  destruct (skip_ws r2) as [|c3 r3]; [discriminate|].
  destruct (Ascii.eqb c3 Str.quote); [|discriminate].
  apply IH.
Qed.

(** A text that starts with an opening brace decodes to a dict or not at
    all. *)
Lemma loads_brace_dict r v :
  loads (String "{" r) = Ok v -> exists d, v = PDict d.
Proof.
  unfold loads, decode.
  destruct (Str.strip_prefix bom (String "{" r)) eqn:Eb; [discriminate|].
  change (skip_ws (String "{" r)) with (String "{"%char r).
  destruct (fuel_for (String "{" r)) as [|n]; [discriminate|].
  cbn [scan_once].
  change (Ascii.eqb "{" Str.quote) with false.
  change (Ascii.eqb "{" "{") with true. cbv iota.
  destruct (skip_ws r) as [|c1 r1] eqn:Er; [discriminate|].
  destruct (Ascii.eqb c1 "}").
  - destruct (skip_ws r1); [|discriminate]. intros [= <-]. eauto.
  - destruct (Ascii.eqb c1 Str.quote); [|discriminate].
    destruct (object_members n [] r1) as [x t| |] eqn:Eo; try discriminate.
    destruct (skip_ws t); [|discriminate]. intros [= <-].
    eapply object_members_dict, Eo.
Qed.

Lemma re_search_brace content g :
  re_search content = Some g -> exists r, g = String "{" r.
Proof.
  intros Hg. destruct (re_search_split _ _ Hg) as (_ & m & _ & _ & -> & _).
  eauto.
Qed.

(** X15.  When the pattern matches and the match parses, the object is
    a dict, and it is the object the interpreter returns: the first layer
    never gives a list, a string or a number. *)
Theorem matched_object_is_a_dict content g v :
  re_search content = Some g -> loads g = Ok v ->
  exists d, v = PDict d /\ interpret content = Ok (PDict d).
Proof.
  intros Hg Hv. destruct (re_search_brace _ _ Hg) as [r ->].
  destruct (loads_brace_dict _ _ Hv) as [d ->].
  exists d. split; [reflexivity|].
  rewrite (interpret_match _ _ Hg), Hv. reflexivity.
Qed.


End Objects.

(** ** The run from end to end *)

Section Pipeline.
Import Llama Analyze Shape.
Context `{Platform}.

(** Every message the parser returns with a body has a clean body and
    the fingerprint of that body. *)
Lemma parse_sms_xml_bodies document sms_list :
  parse_sms_xml document = Ok sms_list ->
  Forall (fun sms => forall body, sms_get sms "body" = Some body ->
            is_clean body = true /\
            sms_get sms "body_md5" = Some (fingerprint body)) sms_list.
Proof.
  unfold parse_sms_xml. destruct document as [elements|e]; [|discriminate].
  cbn [mbind result_bind Py.bind try_except_all].
  destruct (normalize_all elements) as [l|e] eqn:Hall; [|discriminate].
  intros [= <-]. apply normalize_all_Forall2 in Hall.
  induction Hall as [|a sms rest tail Ha _ IH]; constructor; auto.
  apply (normalize_fields a sms Ha).
Qed.

Lemma slice_to_Forall {A} (P : A -> Prop) l n :
  Forall P l -> Forall P (slice_to l n).
Proof.
  intros Hl. unfold slice_to.
  destruct (0 <=? n); apply Forall_take, Hl.
Qed.

(** A property of the records follows from what holds of every record
    assembled for a message of the list. *)
Lemma analyze_sms_list_Forall (Q : record -> Prop) generate calls sms_list :
  Forall (fun sms => forall g body r,
            sms_get sms "body" = Some body -> body <> EmptyString ->
            assemble g sms body = Ok r -> Q r) sms_list ->
  Forall Q (analyze_sms_list generate calls sms_list).
Proof.
  intros Hl. revert calls.
  induction Hl as [|sms rest Hsms _ IH]; intros calls;
    cbn [analyze_sms_list]; [constructor|].
  destruct (sms_get sms "body") as [[|c b]|] eqn:Hb; try apply IH.
  destruct (assemble (generate calls) sms (String c b)) as [r|e] eqn:Ha;
    [|apply IH].
  constructor; [|apply IH].
  eapply Hsms; [reflexivity | discriminate | exact Ha].
Qed.

(** The fourth column of a bound row comes from the record's body. *)
Lemma bind_row_body sms r :
  bind_row sms = Ok r ->
  exists v, sms !! "body" = Some v /\ bind_param v = Ok (r_body r).
Proof.
  unfold bind_row, item. intros Hb.
  repeat match type of Hb with
  | context [sms !! ?k] =>
      destruct (sms !! k) eqn:?;
      cbn [mbind result_bind Py.bind mret result_ret] in Hb; [|discriminate]
  end.
  repeat match type of Hb with
  | context [bind_param ?v] =>
      destruct (bind_param v) eqn:?;
      cbn [mbind result_bind Py.bind mret result_ret] in Hb; [|discriminate]
  end.
  injection Hb as <-. simpl. eauto.
Qed.

Lemma bind_param_str s v : bind_param (PStr s) = Ok v -> v = SText s.
Proof.
  simpl. destruct (has_surrogate s); [discriminate|]. congruence.
Qed.

(** The row bound for a record that carries a body and its fingerprint. *)
Lemma bind_row_fingerprinted (sms : record) body r :
  sms !! "body" = Some (PStr body) ->
  sms !! "body_md5" = Some (PStr (fingerprint body)) ->
  bind_row (ensure_keys sms) = Ok r ->
  r_body r = SText body /\ r_body_md5 r = SText (fingerprint body).
Proof.
  intros Hb Hm Hr.
  destruct (bind_row_body _ _ Hr) as (v & Hv & Hbv).
  destruct (bind_row_body_md5 _ _ Hr) as (w & Hw & Hbw).
  rewrite lookup_ensure_keys, Hb in Hv. rewrite lookup_ensure_keys, Hm in Hw.
  simpl in Hv, Hw. injection Hv as <-. injection Hw as <-.
  apply bind_param_str in Hbv, Hbw. auto.
Qed.

Lemma bound_rows_Forall (Q : row -> Prop) output :
  Forall (fun sms => forall r, bind_row (ensure_keys sms) = Ok r -> Q r)
    output ->
  Forall Q (fst (bound_rows output)).
Proof.
  induction 1 as [|sms rest Hsms _ IH]; cbn [bound_rows]; [constructor|].
  destruct (bind_row (ensure_keys sms)) as [r|e]; [|constructor].
  destruct (bound_rows rest) as [rows failure]. simpl in *.
  constructor; auto.
Qed.

Lemma fold_insert_twice rows table :
  Forall (fun r => exists k, unique_key r = Some k) rows ->
  List.fold_left insert_or_ignore rows
    (List.fold_left insert_or_ignore rows table)
  = List.fold_left insert_or_ignore rows table.
Proof.
  intros Hk. apply fold_insert_noop, conflicts_after_fold, Hk.
Qed.

Lemma bound_rows_keys output :
  Forall has_text_fingerprint output ->
  Forall (fun r => exists k, unique_key r = Some k) (fst (bound_rows output)).
Proof.
  intros Ht. apply bound_rows_Forall.
  eapply Forall_impl; [exact Ht|].
  intros sms Hsms r Hr. eapply text_fingerprint_key; eauto.
Qed.

(** X16.  Every row that [main] adds to the database, whatever the
    document, the limit and the answers of the service, has a body that
    is non-empty clean text (ASCII, no newline, no quote character) and,
    as its fingerprint, the MD5 digest of that very body; the rows the
    database had stay in front, unchanged. *)
Theorem main_adds_fingerprinted_rows document n generate db :
  exists added,
    database (fst (main document n generate db)) = (db ++ added)%list /\
    Forall (fun r => exists body,
              r_body r = SText body /\ body <> EmptyString /\
              is_clean body = true /\
              r_body_md5 r = SText (fingerprint body)) added.
Proof.
  unfold main.
  destruct (parse_sms_xml document) as [sms_list|e] eqn:Hp.
  2:{ exists []. simpl. rewrite List.app_nil_r. split; constructor. }
  cbv zeta.
  set (messages := match n with
                   | Some k => slice_to sms_list k
                   | None => sms_list
                   end).
  set (output := analyze_sms_list generate 0 messages).
  rewrite save_to_sqlite_bound_rows.
  destruct (snd (bound_rows output)) as [e|] eqn:Hf.
  { exists []. simpl. rewrite List.app_nil_r. split; constructor. }
  unfold save_to_csv.
  rewrite (write_rows_clean [] output (analyze_sms_list_no_stray _ _ _)).
  cbn [fst database].
  destruct (fold_insert_app (fst (bound_rows output)) db)
    as (added & Hfold & Hsub).
  exists added. split; [exact Hfold|].
  apply Forall_forall. intros row Hin.
  assert (Hrows : row ∈ fst (bound_rows output))
    by (eapply elem_of_sublist; eauto).
  clear Hin. revert row Hrows. apply Forall_forall.
  apply bound_rows_Forall. apply analyze_sms_list_Forall.
  assert (Hm : Forall (fun sms => forall body,
                 sms_get sms "body" = Some body ->
                 is_clean body = true /\
                 sms_get sms "body_md5" = Some (fingerprint body)) messages).
  { pose proof (parse_sms_xml_bodies _ _ Hp) as Hall. subst messages.
    destruct n; [apply slice_to_Forall|]; exact Hall. }
  eapply Forall_impl; [exact Hm|].
  intros sms Hsms g body r Hb Hne Ha row Hrow.
  destruct (Hsms body Hb) as [Hclean Hmd5].
  destruct (assemble_record _ _ _ _ Hb Ha) as (_ & Hrb & Hrm & _).
  rewrite Hmd5 in Hrm. simpl in Hrm.
  destruct (bind_row_fingerprinted _ _ _ Hrb Hrm Hrow) as [E1 E2].
  exists body. auto.
Qed.

(** X17.  Running [main] again on the same document with the same
    limit and the same answers, on the database the first run left,
    gives the same outcome and leaves the database and the export as the
    first run left them: a second run adds no row. *)
Theorem main_rerun_adds_nothing document n generate db :
  main document n generate (database (fst (main document n generate db)))
  = main document n generate db.
Proof.
  unfold main.
  destruct (parse_sms_xml document) as [sms_list|e]; [|reflexivity].
  cbv zeta.
  set (output := analyze_sms_list generate 0 _).
  rewrite !save_to_sqlite_bound_rows.
  destruct (snd (bound_rows output)) as [e|]; [reflexivity|].
  unfold save_to_csv.
  rewrite (write_rows_clean [] output (analyze_sms_list_no_stray _ _ _)).
  cbn [fst database]. rewrite fold_insert_twice; [reflexivity|].
  apply bound_rows_keys, analyze_sms_list_text_fingerprint.
Qed.

Lemma slice_to_all {A} (l : list A) n :
  Z.of_nat (List.length l) <= n -> slice_to l n = l.
Proof.
  intros Hn. unfold slice_to. destruct (Z.leb_spec 0 n); [|lia].
  apply List.firstn_all2. lia.
Qed.

Lemma slice_to_none {A} (l : list A) n :
  n = 0 \/ n <= - Z.of_nat (List.length l) -> slice_to l n = [].
Proof.
  intros Hn. unfold slice_to. destruct (Z.leb_spec 0 n).
  - replace (Z.to_nat n) with 0%nat by lia. reflexivity.
  - replace (Z.to_nat (Z.of_nat (List.length l) + n)) with 0%nat by lia.
    reflexivity.
Qed.

(** X20.  The limit of [main] at its edges, once the document parses.
    A limit of at least the number of messages is the same as no limit.
    A limit of zero, or a negative limit that reaches to or beyond the
    first message, processes nothing: the run ends without error, the
    database is unchanged and the export has no row. *)
Theorem main_limit_edges document n generate db sms_list :
  parse_sms_xml document = Ok sms_list ->
  (Z.of_nat (List.length sms_list) <= n ->
   main document (Some n) generate db = main document None generate db) /\
  (n = 0 \/ n <= - Z.of_nat (List.length sms_list) ->
   main document (Some n) generate db = (Sinks db (Some []), Ok tt)).
Proof.
  intros Hp. split; intros Hn.
  - unfold main. rewrite Hp, (slice_to_all _ _ Hn). reflexivity.
  - unfold main. rewrite Hp, (slice_to_none _ _ Hn). reflexivity.
Qed.

End Pipeline.

(** ** Serialised values read back *)

Section RoundTrip.
Import Str Json Plain.
Context `{Platform}.

(** *** Strings *)



(** *** Integers *)













(** *** Values *)






Lemma skip_ws_head c r : is_ws c = false -> skip_ws (String c r) = String c r.
Proof.
  intros Hc. unfold skip_ws. cbn [drop_while]. rewrite Hc. reflexivity.
Qed.















Lemma delimited_skip_ws rest :
  delimited rest = true -> skip_ws rest = rest.
Proof.
  destruct rest as [|c r]; [reflexivity|]. unfold delimited.
  intros Hc. apply skip_ws_head.
  destruct (Ascii.eqb_spec c ",") as [->|_]; [reflexivity|].
  destruct (Ascii.eqb_spec c "]") as [->|_]; [reflexivity|].
  destruct (Ascii.eqb_spec c "}") as [->|_]; [reflexivity|discriminate].
Qed.



(** *** One line *)














End RoundTrip.

(** ** The hypotheses above can be met *)

Lemma parse_sms_xml_messages_witness :
  let elements :=
    [Sample.attrib "1671408000000" " SBI " "Paid Rs480 to shop";
     Sample.attrib "1671494400000" "HDFC" Sample.two_line_text] in
  let sms_list :=
    match @Analyze.parse_sms_xml Sample.platform (Ok elements) with
    | Ok l => l
    | Raise _ => []
    end in
  @Analyze.parse_sms_xml Sample.platform (Ok elements) = Ok sms_list /\
  List.length sms_list = 2%nat /\
  Forall2
    (fun attrib sms =>
       (forall k, k <> "date" -> k <> "address" -> k <> "body" ->
          k <> "body_md5" -> sms !! k = Some <$> attrib !! k) /\
       Analyze.sms_get sms "address" = Str.strip <$> attrib !! "address" /\
       Analyze.sms_get sms "body"
       = Analyze.remove_newlines_non_ascii <$> attrib !! "body" /\
       (forall body, Analyze.sms_get sms "body" = Some body ->
          Shape.is_clean body = true /\
          Analyze.sms_get sms "body_md5" = Some (Analyze.fingerprint body)))
    elements sms_list.
Proof.
  intros elements sms_list.
  assert (Hp : @Analyze.parse_sms_xml Sample.platform (Ok elements)
               = Ok sms_list) by (vm_compute; reflexivity).
  split; [exact Hp|].
  split; [vm_compute; reflexivity|].
  exact (@parse_sms_xml_messages Sample.platform elements sms_list Hp).
Defined.

Lemma service_outage_is_not_an_error_witness :
  let document :=
    Ok [Sample.attrib "1671408000000" "SBI" "Paid Rs480 to shop"] in
  let sms_list :=
    match @Analyze.parse_sms_xml Sample.platform document with
    | Ok l => l
    | Raise _ => []
    end in
  @Analyze.parse_sms_xml Sample.platform document = Ok sms_list /\
  List.length sms_list = 1%nat /\
  (forall call prompt, exists e, Sample.script [] call prompt = Raise e) /\
  @Analyze.analyze_sms_list Sample.platform (Sample.script []) 0 sms_list
  = [] /\
  @Analyze.main Sample.platform document None (Sample.script []) []
  = (Analyze.Sinks [] (Some []), Ok tt).
Proof.
  intros document sms_list.
  assert (Hp : @Analyze.parse_sms_xml Sample.platform document = Ok sms_list)
    by (vm_compute; reflexivity).
  assert (Hg : forall (call : nat) (prompt : string),
             exists e, Sample.script [] call prompt = Raise e).
  { intros call prompt. exists ServiceError. unfold Sample.script.
    destruct call; reflexivity. }
  split; [exact Hp|].
  split; [vm_compute; reflexivity|].
  split; [exact Hg|].
  exact (@service_outage_is_not_an_error Sample.platform document None
           (Sample.script []) [] sms_list Hp Hg).
Defined.

Lemma save_to_sqlite_keeps_fingerprints_unique_witness :
  let output :=
    @Analyze.analyze_sms_list Sample.platform
      (Sample.always Sample.debit_reply) 0
      [Sample.message "SBI" "Paid Rs480 to shop";
       Sample.message "HDFC" "Paid Rs480 to shop";
       Sample.message "SBI" "Paid Rs274 to bazar"] in
  @Shape.unique_keys Sample.platform [] /\
  List.length (fst (@Analyze.save_to_sqlite Sample.platform [] output))
  = 2%nat /\
  @Shape.unique_keys Sample.platform
    (fst (@Analyze.save_to_sqlite Sample.platform [] output)).
Proof.
  intros output.
  assert (H0 : @Shape.unique_keys Sample.platform [])
    by apply NoDup_nil_2.
  split; [exact H0|].
  split; [vm_compute; reflexivity|].
  exact (@save_to_sqlite_keeps_fingerprints_unique Sample.platform [] output
           H0).
Defined.

Lemma repeated_fingerprint_adds_no_row_witness :
  let output :=
    @Analyze.analyze_sms_list Sample.platform
      (Sample.always Sample.debit_reply) 0
      [Sample.message "SBI" "Paid Rs480 to shop";
       Sample.message "HDFC" "Paid Rs480 to shop"] in
  let first := List.nth 0 output ∅ in
  let second := List.nth 1 output ∅ in
  exists r k,
    Analyze.bind_row (Analyze.ensure_keys second) = Ok r /\
    @Analyze.unique_key Sample.platform r = Some k /\
    (exists r', Analyze.bind_row (Analyze.ensure_keys first) = Ok r' /\
       @Analyze.unique_key Sample.platform r' = Some k) /\
    @Analyze.save_to_sqlite Sample.platform [] [first; second]
    = @Analyze.save_to_sqlite Sample.platform [] [first].
Proof.
  intros output first second.
  destruct (Analyze.bind_row (Analyze.ensure_keys second)) as [r|e] eqn:Er;
    [|exfalso; vm_compute in Er; discriminate Er].
  destruct (@Analyze.unique_key Sample.platform r) as [k|] eqn:Ek;
    [|exfalso; vm_compute in Er; injection Er as <-;
      vm_compute in Ek; discriminate Ek].
  destruct (Analyze.bind_row (Analyze.ensure_keys first)) as [r'|e'] eqn:Er';
    [|exfalso; vm_compute in Er'; discriminate Er'].
  assert (Ek' : @Analyze.unique_key Sample.platform r' = Some k).
  { vm_compute in Er, Er'. injection Er as <-. injection Er' as <-.
    vm_compute in Ek. vm_compute. exact Ek. }
  exists r, k.
  split; [reflexivity|].
  split; [exact Ek|].
  split; [exists r'; split; [reflexivity|exact Ek']|].
  exact (@repeated_fingerprint_adds_no_row Sample.platform [] [first] second
           [] r k Er Ek
           (or_intror (ex_intro _ first (ex_intro _ r'
              (conj (or_introl eq_refl) (conj Er' Ek')))))).
Defined.

Lemma main_batch_limit_witness :
  let document :=
    Ok [Sample.attrib "1671408000000" "SBI" "Paid Rs480 to shop";
        Sample.attrib "1671494400000" "HDFC" "Paid Rs274 to bazar"] in
  let sinks :=
    fst (@Analyze.main Sample.platform document (Some 1)
           (Sample.always Sample.debit_reply) []) in
  0 <= 1 /\
  List.length (Analyze.database sinks) = 1%nat /\
  exists added,
    Analyze.database sinks = ([] ++ added)%list /\
    Z.of_nat (List.length added) <= 1 /\
    forall file,
      Analyze.export sinks = Some file -> Z.of_nat (List.length file) <= 1.
Proof.
  intros document sinks.
  assert (H1 : 0 <= 1) by lia.
  split; [exact H1|].
  split; [vm_compute; reflexivity|].
  exact (@main_batch_limit Sample.platform document 1
           (Sample.always Sample.debit_reply) [] H1).
Defined.

Lemma matched_object_is_a_dict_witness :
  let v :=
    match Json.loads Sample.debit_reply with
    | Ok v => v
    | Raise _ => PNone
    end in
  Llama.re_search Sample.chatty_reply = Some Sample.debit_reply /\
  Json.loads Sample.debit_reply = Ok v /\
  exists d, v = PDict d /\ Llama.interpret Sample.chatty_reply = Ok (PDict d).
Proof.
  intros v.
  assert (Hs : Llama.re_search Sample.chatty_reply = Some Sample.debit_reply)
    by (vm_compute; reflexivity).
  assert (Hl : Json.loads Sample.debit_reply = Ok v)
    by (vm_compute; reflexivity).
  split; [exact Hs|].
  split; [exact Hl|].
  exact (matched_object_is_a_dict Sample.chatty_reply Sample.debit_reply v
           Hs Hl).
Defined.



Lemma main_limit_edges_witness :
  let document :=
    Ok [Sample.attrib "1671408000000" "SBI" "Paid Rs480 to shop";
        Sample.attrib "1671494400000" "HDFC" "Paid Rs274 to bazar"] in
  let sms_list :=
    match @Analyze.parse_sms_xml Sample.platform document with
    | Ok l => l
    | Raise _ => []
    end in
  let generate := Sample.always Sample.debit_reply in
  @Analyze.parse_sms_xml Sample.platform document = Ok sms_list /\
  List.length sms_list = 2%nat /\
  @Analyze.main Sample.platform document (Some 5) generate []
  = @Analyze.main Sample.platform document None generate [] /\
  @Analyze.main Sample.platform document (Some (-2)) generate []
  = (Analyze.Sinks [] (Some []), Ok tt).
Proof.
  intros document sms_list generate.
  assert (Hp : @Analyze.parse_sms_xml Sample.platform document = Ok sms_list)
    by (vm_compute; reflexivity).
  assert (Hl : List.length sms_list = 2%nat) by (vm_compute; reflexivity).
  split; [exact Hp|]. split; [exact Hl|].
  split.
  - apply (proj1 (@main_limit_edges Sample.platform document 5 generate []
                    sms_list Hp)).
    rewrite Hl. lia.
  - apply (proj2 (@main_limit_edges Sample.platform document (-2) generate []
                    sms_list Hp)).
    right. rewrite Hl. lia.
Defined.
